(** * DentistaPro: the appointment store, its lifecycle and the two chat views

    A shallow embedding of [src/types.ts], [src/services/storageService.ts],
    [src/services/firebase.ts] and of the event handlers and render guards of
    [src/components/PatientView.tsx] and [src/components/AdminDashboard.tsx],
    followed by the properties of the appointment lifecycle. *)

From Stdlib Require Import String Ascii NArith ZArith Lia.
From Stdlib Require Import Sorting.Sorted.
From stdpp Require Import gmap list.

Local Open Scope N_scope.

(** ** JavaScript strings *)

(** A JavaScript string is a sequence of UTF-16 code units. *)
Abbreviation jsstring := (list N).

(** An ASCII literal as a JavaScript string. *)
Definition js (s : string) : jsstring :=
  N_of_ascii <$> list_ascii_of_string s.

(** ECMAScript [WhiteSpace] and [LineTerminator] code points: what
    [String.prototype.trim] strips. *)
Definition is_white_space (c : N) : bool :=
  (c =? 9) || (c =? 10) || (c =? 11) || (c =? 12) || (c =? 13) || (c =? 32)
  || (c =? 160) || (c =? 5760) || ((8192 <=? c) && (c <=? 8202))
  || (c =? 8232) || (c =? 8233) || (c =? 8239) || (c =? 8287)
  || (c =? 12288) || (c =? 65279).

Fixpoint trimStart (s : jsstring) : jsstring :=
  match s with
  | [] => []
  | c :: s' => if is_white_space c then trimStart s' else s
  end.

Definition trimEnd (s : jsstring) : jsstring := rev (trimStart (rev s)).

Definition trim (s : jsstring) : jsstring := trimEnd (trimStart s).

(** Truthiness of a string: [s] is truthy exactly when it is not empty. *)
Definition truthy (s : jsstring) : bool :=
  match s with [] => false | _ => true end.

(** The order of [<], [>=] and friends on strings: lexicographic on code
    units.  The result is negative, zero or positive. *)
Fixpoint code_unit_compare (a b : jsstring) : Z :=
  match a, b with
  | [], [] => 0%Z
  | [], _ :: _ => (-1)%Z
  | _ :: _, [] => 1%Z
  | x :: a', y :: b' =>
      match N.compare x y with
      | Lt => (-1)%Z
      | Gt => 1%Z
      | Eq => code_unit_compare a' b'
      end
  end.

(** The place of a character in the collation order that [localeCompare]
    uses.  Of the collation table, only the order of the characters of the
    date and time inputs is taken: punctuation sorts before the digits,
    ['-'] before [':'] before ['0'] ... ['9'], each with a weight of its own.
    The other characters get keys that keep them apart from these and from
    each other; their order among themselves is the runtime's, and no
    property below depends on it. *)
Definition collation_key (c : N) : N :=
  if c =? 45 then 0
  else if c =? 58 then 1
  else if (48 <=? c) && (c <=? 57) then c - 46
  else c + 12.

(** [a.localeCompare(b)] in the default locale: the strings are compared
    character by character by collation key (faithful on strings of digits,
    ['-'] and [':']; see [collation_key]). *)
Definition localeCompare (a b : jsstring) : Z :=
  code_unit_compare (collation_key <$> a) (collation_key <$> b).

(** [n.toString()] for a non-negative integer: its decimal digits. *)
Fixpoint digits_of_uint (d : Decimal.uint) : jsstring :=
  match d with
  | Decimal.Nil => []
  | Decimal.D0 d' => 48 :: digits_of_uint d'
  | Decimal.D1 d' => 49 :: digits_of_uint d'
  | Decimal.D2 d' => 50 :: digits_of_uint d'
  | Decimal.D3 d' => 51 :: digits_of_uint d'
  | Decimal.D4 d' => 52 :: digits_of_uint d'
  | Decimal.D5 d' => 53 :: digits_of_uint d'
  | Decimal.D6 d' => 54 :: digits_of_uint d'
  | Decimal.D7 d' => 55 :: digits_of_uint d'
  | Decimal.D8 d' => 56 :: digits_of_uint d'
  | Decimal.D9 d' => 57 :: digits_of_uint d'
  end.

Definition toString (n : N) : jsstring := digits_of_uint (N.to_uint n).

(** ** [types.ts] *)

Inductive AppointmentStatus := SCHEDULED | COMPLETED | CANCELLED.

(** The string value of each member of the enum. *)
Definition status_label (s : AppointmentStatus) : jsstring :=
  match s with
  | SCHEDULED => js "PROGRAMADA"
  | COMPLETED => js "COMPLETADA"
  | CANCELLED => js "CANCELADA"
  end.

Inductive Sender := doctor | patient.

Record ChatMessage := {
  msg_id : jsstring;
  sender : Sender;
  text : jsstring;
  timestamp : N
}.

(** [Omit<ChatMessage, 'id'>] *)
Record MessageDraft := {
  draft_sender : Sender;
  draft_text : jsstring;
  draft_timestamp : N
}.

(** The fields of an [Appointment] other than [id]: what a stored document
    holds ([doc.data()]).  An optional field that is missing is [None]. *)
Record DocData := {
  patientName : jsstring;
  patientEmail : option jsstring;
  patientPhone : option jsstring;
  date : jsstring;
  time : jsstring;
  treatmentType : jsstring;
  status : AppointmentStatus;
  doctorNotes : option jsstring;
  patientComments : option jsstring;
  cancellationReason : option jsstring;
  messages : option (list ChatMessage);
  createdAt : N
}.

(** [{ id: doc.id, ...doc.data() } as Appointment] *)
Record Appointment := {
  id : jsstring;
  data : DocData
}.

Record NewAppointmentDTO := {
  dto_patientName : jsstring;
  dto_patientEmail : jsstring;
  dto_patientPhone : jsstring;
  dto_date : jsstring;
  dto_time : jsstring;
  dto_treatmentType : jsstring
}.

Global Instance AppointmentStatus_eq_dec : EqDecision AppointmentStatus.
Proof. solve_decision. Defined.
Global Instance Sender_eq_dec : EqDecision Sender.
Proof. solve_decision. Defined.
Global Instance ChatMessage_eq_dec : EqDecision ChatMessage.
Proof. solve_decision. Defined.
Global Instance DocData_eq_dec : EqDecision DocData.
Proof. solve_decision. Defined.
Global Instance Appointment_eq_dec : EqDecision Appointment.
Proof. solve_decision. Defined.

(** ** The runtime: Firestore, the clock, the console and [alert] *)

(** A [FirebaseError]; the code only ever inspects [error.code]. *)
Record FirestoreError := { code : jsstring }.

Global Instance FirestoreError_eq_dec : EqDecision FirestoreError.
Proof. solve_decision. Defined.

(** What the backend answers to one request.  Which answer comes is the
    environment's choice (network, security rules), so every operation takes
    it as an argument. *)
Inductive ServerReply := Accept | Reject (e : FirestoreError).

(** The value written to the [messages] field: a plain array, or the
    [arrayUnion(...)] transform. *)
Inductive MessagesValue :=
  | Messages (l : list ChatMessage)
  | arrayUnion (l : list ChatMessage).

(** One property of the object given to [updateDoc]: a key of
    [Partial<Appointment>] with its value, where [None] is the JavaScript
    value [undefined].  (No caller passes the key [id].) *)
Inductive FieldUpdate :=
  | set_patientName (v : option jsstring)
  | set_patientEmail (v : option jsstring)
  | set_patientPhone (v : option jsstring)
  | set_date (v : option jsstring)
  | set_time (v : option jsstring)
  | set_treatmentType (v : option jsstring)
  | set_status (v : option AppointmentStatus)
  | set_doctorNotes (v : option jsstring)
  | set_patientComments (v : option jsstring)
  | set_cancellationReason (v : option jsstring)
  | set_messages (v : option MessagesValue)
  | set_createdAt (v : option N).

(** The calls made to the Firestore SDK, in the order they are made. *)
Inductive StoreCall :=
  | CallGetDoc (docId : jsstring)
  | CallAddDoc (d : DocData)
  | CallUpdateDoc (docId : jsstring) (updates : list FieldUpdate)
  | CallDeleteDoc (docId : jsstring).

Record World := {
  docs : gmap jsstring DocData;   (* the collection 'appointments' *)
  clock : N;                      (* epoch milliseconds *)
  calls : list StoreCall;         (* SDK calls made so far, oldest first *)
  console : list (jsstring * FirestoreError);  (* console.error, oldest first *)
  alerts : list jsstring          (* alert(), oldest first *)
}.

Definition with_docs (m : gmap jsstring DocData) (w : World) : World :=
  {| docs := m; clock := clock w; calls := calls w;
     console := console w; alerts := alerts w |}.

(** How an [async] function ends: its promise is fulfilled or rejected. *)
Inductive Completion (A : Type) :=
  | Returned (a : A)
  | Thrown (e : FirestoreError).
Arguments Returned {A} a.
Arguments Thrown {A} e.

(** Effectful code: a state transformer over the world that may throw. *)
Definition M (A : Type) : Type := World → World * Completion A.

Definition ret {A} (a : A) : M A := λ w, (w, Returned a).

Definition throw {A} (e : FirestoreError) : M A := λ w, (w, Thrown e).

Definition bind {A B} (m : M A) (k : A → M B) : M B :=
  λ w, match m w with
       | (w', Returned a) => k a w'
       | (w', Thrown e) => (w', Thrown e)
       end.

(** [try { body } catch (error) { handler }] *)
Definition try_catch {A} (body : M A) (handler : FirestoreError → M A) : M A :=
  λ w, match body w with
       | (w', Returned a) => (w', Returned a)
       | (w', Thrown e) => handler e w'
       end.

Declare Scope js_scope.
Delimit Scope js_scope with js.
Notation "'let*' x := m 'in' k" := (bind m (λ x, k))
  (at level 10, x name, m at level 100, k at level 200) : js_scope.
Notation "m >> k" := (bind m (λ _, k))
  (at level 90, right associativity) : js_scope.
Local Open Scope js_scope.

Definition console_error (msg : jsstring) (e : FirestoreError) : M unit :=
  λ w, ({| docs := docs w; clock := clock w; calls := calls w;
           console := console w ++ [(msg, e)]; alerts := alerts w |},
        Returned tt).

Definition alert (msg : jsstring) : M unit :=
  λ w, ({| docs := docs w; clock := clock w; calls := calls w;
           console := console w; alerts := alerts w ++ [msg] |},
        Returned tt).

(** [Date.now()]: [elapsed] milliseconds have passed since the clock was last
    read. *)
Definition Date_now (elapsed : N) : M N :=
  λ w, let t := clock w + elapsed in
       ({| docs := docs w; clock := t; calls := calls w;
           console := console w; alerts := alerts w |},
        Returned t).

Definition record_call (c : StoreCall) : M unit :=
  λ w, ({| docs := docs w; clock := clock w; calls := calls w ++ [c];
           console := console w; alerts := alerts w |},
        Returned tt).

(** *** [firebase.ts] *)

Record FirestoreSettings := { ignoreUndefinedProperties : bool }.

(** [getFirestore(app)]: the default settings. *)
Definition db : FirestoreSettings := {| ignoreUndefinedProperties := false |}.

(** *** The Firestore operations the service uses *)

Definition is_undefined (u : FieldUpdate) : bool :=
  match u with
  | set_patientName None | set_patientEmail None | set_patientPhone None
  | set_date None | set_time None | set_treatmentType None
  | set_status None | set_doctorNotes None | set_patientComments None
  | set_cancellationReason None | set_messages None | set_createdAt None => true
  | _ => false
  end.

(** The [arrayUnion] transform on the server: each element that is not yet
    in the array is added at its end. *)
Definition array_union (elements arr : list ChatMessage) : list ChatMessage :=
  foldl (λ acc m, if decide (m ∈ acc) then acc else acc ++ [m]) arr elements.

(** Writing one defined field into a document.  A field whose value is
    [undefined] never reaches the document: it is refused, or left out of the
    write, before this point. *)
Definition write_field (u : FieldUpdate) (d : DocData) : DocData :=
  match u with
  | set_patientName (Some v) =>
      {| patientName := v; patientEmail := patientEmail d;
         patientPhone := patientPhone d; date := date d; time := time d;
         treatmentType := treatmentType d; status := status d;
         doctorNotes := doctorNotes d; patientComments := patientComments d;
         cancellationReason := cancellationReason d; messages := messages d;
         createdAt := createdAt d |}
  | set_patientEmail (Some v) =>
      {| patientName := patientName d; patientEmail := Some v;
         patientPhone := patientPhone d; date := date d; time := time d;
         treatmentType := treatmentType d; status := status d;
         doctorNotes := doctorNotes d; patientComments := patientComments d;
         cancellationReason := cancellationReason d; messages := messages d;
         createdAt := createdAt d |}
  | set_patientPhone (Some v) =>
      {| patientName := patientName d; patientEmail := patientEmail d;
         patientPhone := Some v; date := date d; time := time d;
         treatmentType := treatmentType d; status := status d;
         doctorNotes := doctorNotes d; patientComments := patientComments d;
         cancellationReason := cancellationReason d; messages := messages d;
         createdAt := createdAt d |}
  | set_date (Some v) =>
      {| patientName := patientName d; patientEmail := patientEmail d;
         patientPhone := patientPhone d; date := v; time := time d;
         treatmentType := treatmentType d; status := status d;
         doctorNotes := doctorNotes d; patientComments := patientComments d;
         cancellationReason := cancellationReason d; messages := messages d;
         createdAt := createdAt d |}
  | set_time (Some v) =>
      {| patientName := patientName d; patientEmail := patientEmail d;
         patientPhone := patientPhone d; date := date d; time := v;
         treatmentType := treatmentType d; status := status d;
         doctorNotes := doctorNotes d; patientComments := patientComments d;
         cancellationReason := cancellationReason d; messages := messages d;
         createdAt := createdAt d |}
  | set_treatmentType (Some v) =>
      {| patientName := patientName d; patientEmail := patientEmail d;
         patientPhone := patientPhone d; date := date d; time := time d;
         treatmentType := v; status := status d;
         doctorNotes := doctorNotes d; patientComments := patientComments d;
         cancellationReason := cancellationReason d; messages := messages d;
         createdAt := createdAt d |}
  | set_status (Some v) =>
      {| patientName := patientName d; patientEmail := patientEmail d;
         patientPhone := patientPhone d; date := date d; time := time d;
         treatmentType := treatmentType d; status := v;
         doctorNotes := doctorNotes d; patientComments := patientComments d;
         cancellationReason := cancellationReason d; messages := messages d;
         createdAt := createdAt d |}
  | set_doctorNotes (Some v) =>
      {| patientName := patientName d; patientEmail := patientEmail d;
         patientPhone := patientPhone d; date := date d; time := time d;
         treatmentType := treatmentType d; status := status d;
         doctorNotes := Some v; patientComments := patientComments d;
         cancellationReason := cancellationReason d; messages := messages d;
         createdAt := createdAt d |}
  | set_patientComments (Some v) =>
      {| patientName := patientName d; patientEmail := patientEmail d;
         patientPhone := patientPhone d; date := date d; time := time d;
         treatmentType := treatmentType d; status := status d;
         doctorNotes := doctorNotes d; patientComments := Some v;
         cancellationReason := cancellationReason d; messages := messages d;
         createdAt := createdAt d |}
  | set_cancellationReason (Some v) =>
      {| patientName := patientName d; patientEmail := patientEmail d;
         patientPhone := patientPhone d; date := date d; time := time d;
         treatmentType := treatmentType d; status := status d;
         doctorNotes := doctorNotes d; patientComments := patientComments d;
         cancellationReason := Some v; messages := messages d;
         createdAt := createdAt d |}
  | set_messages (Some v) =>
      {| patientName := patientName d; patientEmail := patientEmail d;
         patientPhone := patientPhone d; date := date d; time := time d;
         treatmentType := treatmentType d; status := status d;
         doctorNotes := doctorNotes d; patientComments := patientComments d;
         cancellationReason := cancellationReason d;
         messages :=
           Some match v with
                | Messages l => l
                | arrayUnion l => array_union l (default [] (messages d))
                end;
         createdAt := createdAt d |}
  | set_createdAt (Some v) =>
      {| patientName := patientName d; patientEmail := patientEmail d;
         patientPhone := patientPhone d; date := date d; time := time d;
         treatmentType := treatmentType d; status := status d;
         doctorNotes := doctorNotes d; patientComments := patientComments d;
         cancellationReason := cancellationReason d; messages := messages d;
         createdAt := v |}
  | _ => d
  end.

(** The merge the server performs for an accepted update. *)
Definition merge_fields (updates : list FieldUpdate) (d : DocData) : DocData :=
  foldl (λ acc u, write_field u acc) d updates.

Definition invalid_argument : FirestoreError := {| code := js "invalid-argument" |}.
Definition not_found : FirestoreError := {| code := js "not-found" |}.

(** [getDoc(doc(db, 'appointments', id))]: the snapshot, [None] when
    [!snap.exists()]. *)
Definition getDoc (docId : jsstring) (reply : ServerReply) : M (option DocData) :=
  record_call (CallGetDoc docId) >>
  match reply with
  | Reject e => throw e
  | Accept => λ w, (w, Returned (docs w !! docId))
  end.

(** [addDoc(collection(db, 'appointments'), d)]: the store assigns the
    document id [autoId]. *)
Definition addDoc (autoId : jsstring) (d : DocData) (reply : ServerReply)
  : M jsstring :=
  record_call (CallAddDoc d) >>
  match reply with
  | Reject e => throw e
  | Accept => λ w, (with_docs (<[autoId := d]> (docs w)) w, Returned autoId)
  end.

(** [updateDoc(doc(db, 'appointments', id), updates)].  The SDK first checks
    the data: unless [ignoreUndefinedProperties] is set, a property whose
    value is [undefined] makes the call throw ("Unsupported field value:
    undefined"); when it is set, such a property is left out of the write.
    The server then refuses the update of a document that does not exist. *)
Definition updateDoc (settings : FirestoreSettings) (docId : jsstring)
    (updates : list FieldUpdate) (reply : ServerReply) : M unit :=
  record_call (CallUpdateDoc docId updates) >>
  if negb (ignoreUndefinedProperties settings) && existsb is_undefined updates
  then throw invalid_argument
  else match reply with
       | Reject e => throw e
       | Accept =>
           λ w, match docs w !! docId with
                | None => (w, Thrown not_found)
                | Some d =>
                    (with_docs (<[docId := merge_fields updates d]> (docs w)) w,
                     Returned tt)
                end
       end.

(** [deleteDoc(doc(db, 'appointments', id))] *)
Definition deleteDoc (docId : jsstring) (reply : ServerReply) : M unit :=
  record_call (CallDeleteDoc docId) >>
  match reply with
  | Reject e => throw e
  | Accept => λ w, (with_docs (delete docId (docs w)) w, Returned tt)
  end.

(** ** [storageService.ts] *)

(** [Array.prototype.sort(cmp)]: a stable sort (ECMAScript 2019); [cmp a b > 0]
    puts [a] after [b].  For a consistent comparator the result does not
    depend on the algorithm, so insertion from the right stands for it. *)
Fixpoint sort_insert {A} (cmp : A → A → Z) (x : A) (l : list A) : list A :=
  match l with
  | [] => [x]
  | y :: l' => if (cmp x y <=? 0)%Z then x :: l else y :: sort_insert cmp x l'
  end.

Definition Array_sort {A} (cmp : A → A → Z) (l : list A) : list A :=
  foldr (sort_insert cmp) [] l.

(** [s || ''] *)
Definition or_empty (s : jsstring) : jsstring := if truthy s then s else [].

(** The comparator of [subscribeToAppointments]: first by date, then by time. *)
Definition compareAppointments (a b : Appointment) : Z :=
  let dateA := or_empty (date (data a)) in
  let dateB := or_empty (date (data b)) in
  let dateCompare := localeCompare dateA dateB in
  if negb (dateCompare =? 0)%Z then dateCompare
  else
    let timeA := or_empty (time (data a)) in
    let timeB := or_empty (time (data b)) in
    localeCompare timeA timeB.

(** [snapshot.docs.map(doc => ({ id: doc.id, ...doc.data() }))] *)
Definition snapshot_appointments (snapshot : list (jsstring * DocData))
  : list Appointment :=
  (λ p, {| id := p.1; data := p.2 |}) <$> snapshot.

Module StorageService.

(** The listener that [subscribeToAppointments] registers with [onSnapshot]:
    what runs each time the store delivers the documents of the collection,
    in the store's order. *)
Definition subscribeToAppointments {R} (callback : list Appointment → R)
    (snapshot : list (jsstring * DocData)) : R :=
  let appointments := snapshot_appointments snapshot in
  callback (Array_sort compareAppointments appointments).

(** The error listener it registers. *)
Definition subscribeToAppointments_error
    (onError : option (FirestoreError → M unit)) (error : FirestoreError)
  : M unit :=
  console_error (js "Error fetching appointments:") error >>
  match onError with
  | Some f => f error
  | None => ret tt
  end.

Definition getAppointmentById (docId : jsstring) (reply : ServerReply)
  : M (option Appointment) :=
  try_catch
    (let* docSnap := getDoc docId reply in
     match docSnap with
     | Some d => ret (Some {| id := docId; data := d |})
     | None => ret None
     end)
    (λ error,
       console_error (js "Error getting document:") error >>
       ret None).

(** The record that [createAppointment] builds from the DTO. *)
Definition newAppointment (dto : NewAppointmentDTO) (now : N) : DocData :=
  {| patientName := dto_patientName dto;
     patientEmail := Some (dto_patientEmail dto);
     patientPhone := Some (dto_patientPhone dto);
     date := dto_date dto;
     time := dto_time dto;
     treatmentType := dto_treatmentType dto;
     status := SCHEDULED;
     doctorNotes := None;
     patientComments := None;
     cancellationReason := None;
     messages := Some [];
     createdAt := now |}.

Definition no_permission_alert : jsstring :=
  js "No tienes permiso para crear citas. Aseg" ++ [250] ++
  js "rate de estar logueado como administrador.".

Definition createAppointment (dto : NewAppointmentDTO) (elapsed : N)
    (autoId : jsstring) (reply : ServerReply) : M unit :=
  try_catch
    (let* now := Date_now elapsed in
     addDoc autoId (newAppointment dto now) reply >>
     ret tt)
    (λ error,
       console_error (js "Error creating appointment:") error >>
       (if decide (code error = js "permission-denied")
        then alert no_permission_alert
        else ret tt) >>
       throw error).

Definition updateAppointment (docId : jsstring) (updates : list FieldUpdate)
    (reply : ServerReply) : M unit :=
  try_catch
    (updateDoc db docId updates reply)
    (λ error, console_error (js "Error updating appointment:") error).

(** [{ ...message, id: Date.now().toString() }] *)
Definition newMessage (message : MessageDraft) (now : N) : ChatMessage :=
  {| msg_id := toString now;
     sender := draft_sender message;
     text := draft_text message;
     timestamp := draft_timestamp message |}.

Definition addMessage (appointmentId : jsstring) (message : MessageDraft)
    (elapsed : N) (reply : ServerReply) : M unit :=
  try_catch
    (let* now := Date_now elapsed in
     updateDoc db appointmentId
       [set_messages (Some (arrayUnion [newMessage message now]))] reply)
    (λ error, console_error (js "Error sending message:") error).

Definition deleteAppointment (docId : jsstring) (reply : ServerReply)
  : M unit :=
  try_catch
    (deleteDoc docId reply)
    (λ error, console_error (js "Error deleting appointment:") error).

End StorageService.

(** A value used as a condition: [null] and the empty string are falsy. *)
Definition truthy_opt (o : option jsstring) : bool :=
  match o with Some s => truthy s | None => false end.

(** ** [PatientView.tsx] *)

Module PatientView.

(** The component's [useState] cells. *)
Record State := {
  appointment : option Appointment;
  loading : bool;
  cancelReason : jsstring;
  showCancelModal : bool;
  messageText : jsstring
}.

Definition initial : State :=
  {| appointment := None; loading := true; cancelReason := [];
     showCancelModal := false; messageText := [] |}.

Definition setAppointment (a : option Appointment) (st : State) : State :=
  {| appointment := a; loading := loading st; cancelReason := cancelReason st;
     showCancelModal := showCancelModal st; messageText := messageText st |}.

Definition setLoading (b : bool) (st : State) : State :=
  {| appointment := appointment st; loading := b;
     cancelReason := cancelReason st;
     showCancelModal := showCancelModal st; messageText := messageText st |}.

Definition setCancelReason (s : jsstring) (st : State) : State :=
  {| appointment := appointment st; loading := loading st; cancelReason := s;
     showCancelModal := showCancelModal st; messageText := messageText st |}.

Definition setShowCancelModal (b : bool) (st : State) : State :=
  {| appointment := appointment st; loading := loading st;
     cancelReason := cancelReason st;
     showCancelModal := b; messageText := messageText st |}.

Definition setMessageText (s : jsstring) (st : State) : State :=
  {| appointment := appointment st; loading := loading st;
     cancelReason := cancelReason st;
     showCancelModal := showCancelModal st; messageText := s |}.

(** The document listener of the first effect: [docSnap] is [None] when the
    document does not exist. *)
Definition onSnapshot_next (appointmentId : jsstring)
    (docSnap : option DocData) (st : State) : State :=
  setLoading false
    (match docSnap with
     | Some d => setAppointment (Some {| id := appointmentId; data := d |}) st
     | None => setAppointment None st
     end).

Definition handleSendMessage (st : State) (elapsed_send elapsed_id : N)
    (reply : ServerReply) : M State :=
  match appointment st with
  | Some a =>
      if truthy (trim (messageText st)) then
        let* now := Date_now elapsed_send in
        StorageService.addMessage (id a)
          {| draft_sender := patient; draft_text := messageText st;
             draft_timestamp := now |} elapsed_id reply >>
        ret (setMessageText [] st)
      else ret st
  | None => ret st
  end.

Definition handleCancel (st : State) (reply : ServerReply) : M State :=
  match appointment st with
  | Some a =>
      if truthy (trim (cancelReason st)) then
        StorageService.updateAppointment (id a)
          [set_status (Some CANCELLED);
           set_cancellationReason (Some (cancelReason st))] reply >>
        ret (setShowCancelModal false st)
      else ret st
  | None => ret st
  end.

(** [confirmed] is the answer to the [confirm(...)] dialog. *)
Definition handleResume (st : State) (confirmed : bool) (reply : ServerReply)
  : M State :=
  match appointment st with
  | Some a =>
      if confirmed then
        StorageService.updateAppointment (id a)
          [set_status (Some SCHEDULED); set_cancellationReason None] reply >>
        ret st
      else ret st
  | None => ret st
  end.

(** What the render shows of the chat form and of the cancel controls; there
    is no such view while loading or when the appointment is missing. *)
Record View := {
  isCancelled : bool;
  input_disabled : bool;          (* the chat text input *)
  send_disabled : bool;           (* the chat submit button *)
  resume_button : bool;           (* "Reanudar Cita" is shown *)
  cancel_button : bool;           (* "Cancelar Cita" is shown *)
  cancel_modal : bool;            (* the cancellation modal is shown *)
  confirm_disabled : bool         (* its "Confirmar" button *)
}.

Definition render (st : State) : option View :=
  if loading st then None
  else match appointment st with
       | None => None
       | Some a =>
           let isCancelled := bool_decide (status (data a) = CANCELLED) in
           Some {| isCancelled := isCancelled;
                   input_disabled := isCancelled;
                   send_disabled :=
                     negb (truthy (trim (messageText st))) || isCancelled;
                   resume_button := isCancelled;
                   cancel_button := negb isCancelled;
                   cancel_modal := showCancelModal st;
                   confirm_disabled :=
                     negb (truthy (trim (cancelReason st))) |}
       end.

(** The chat form can be submitted (by its button, or by Enter in its input)
    only while the form is on screen and its submit button is enabled. *)
Definition can_submit_message (st : State) : bool :=
  match render st with
  | Some v => negb (send_disabled v)
  | None => false
  end.

(** The first effect: nothing is subscribed for an empty [appointmentId];
    otherwise the listener runs on every delivery of the document
    ([None]: the document does not exist). *)
Definition mounted (appointmentId : jsstring)
    (deliveries : list (option DocData)) : State :=
  if negb (truthy appointmentId) then initial
  else foldl (λ st docSnap, onSnapshot_next appointmentId docSnap st)
         initial deliveries.

(** What the chat area shows besides the messages: the hint of the empty
    chat, and the legacy comment bubble. *)
Definition no_messages (a : Appointment) : bool :=
  match messages (data a) with
  | None => true
  | Some l => bool_decide (length l = 0%nat)
  end.

Definition empty_hint_shown (a : Appointment) : bool :=
  no_messages a && negb (truthy_opt (patientComments (data a))).

Definition legacy_comment_shown (a : Appointment) : bool :=
  truthy_opt (patientComments (data a)) && no_messages a.

(** The screen the component returns. *)
Inductive Screen :=
  | LoadingSpinner
  | NotFound                       (* "Cita no encontrada" *)
  | Card (a : Appointment) (v : View).

Definition screen (st : State) : Screen :=
  if loading st then LoadingSpinner
  else match appointment st, render st with
       | Some a, Some v => Card a v
       | _, _ => NotFound
       end.

End PatientView.

(** ** [AdminDashboard.tsx] *)

(** [s.includes(t)]: [t] occurs in [s] as a substring. *)
Fixpoint starts_with (s t : jsstring) : bool :=
  match t, s with
  | [], _ => true
  | _ :: _, [] => false
  | y :: t', x :: s' => (x =? y) && starts_with s' t'
  end.

Fixpoint includes (s t : jsstring) : bool :=
  starts_with s t ||
  match s with
  | [] => false
  | _ :: s' => includes s' t
  end.

(** [appt.messages || []] *)
Definition message_list_of (appt : Appointment) : list ChatMessage :=
  default [] (messages (data appt)).

Module AdminDashboard.

Inductive ViewState := agenda | history | dashboard.

Record FormData := {
  fd_patientName : jsstring;
  fd_patientEmail : jsstring;
  fd_patientPhone : jsstring;
  fd_date : jsstring;
  fd_time : jsstring;
  fd_treatmentType : jsstring;
  fd_customTreatment : jsstring
}.

Definition empty_form : FormData :=
  {| fd_patientName := []; fd_patientEmail := []; fd_patientPhone := [];
     fd_date := []; fd_time := []; fd_treatmentType := js "Limpieza General";
     fd_customTreatment := [] |}.

(** The component's [useState] cells. *)
Record State := {
  appointments : list Appointment;
  filteredAppointments : list Appointment;
  searchTerm : jsstring;
  currentView : ViewState;
  isModalOpen : bool;
  editingId : option jsstring;
  selectedQr : option jsstring;
  previewId : option jsstring;
  isChatOpen : option jsstring;
  chatMessage : jsstring;
  loading : bool;
  error : option jsstring;
  formData : FormData
}.

Definition initial : State :=
  {| appointments := []; filteredAppointments := []; searchTerm := [];
     currentView := agenda; isModalOpen := false; editingId := None;
     selectedQr := None; previewId := None; isChatOpen := None;
     chatMessage := []; loading := true; error := None;
     formData := empty_form |}.

Definition setFilteredAppointments (l : list Appointment) (st : State) : State :=
  {| appointments := appointments st; filteredAppointments := l;
     searchTerm := searchTerm st; currentView := currentView st;
     isModalOpen := isModalOpen st; editingId := editingId st;
     selectedQr := selectedQr st; previewId := previewId st;
     isChatOpen := isChatOpen st; chatMessage := chatMessage st;
     loading := loading st; error := error st; formData := formData st |}.

(** The subscription callback: [setAppointments(data); setLoading(false);
    setError(null)]. *)
Definition onData (l : list Appointment) (st : State) : State :=
  {| appointments := l; filteredAppointments := filteredAppointments st;
     searchTerm := searchTerm st; currentView := currentView st;
     isModalOpen := isModalOpen st; editingId := editingId st;
     selectedQr := selectedQr st; previewId := previewId st;
     isChatOpen := isChatOpen st; chatMessage := chatMessage st;
     loading := false; error := None; formData := formData st |}.

Definition setIsChatOpen (o : option jsstring) (st : State) : State :=
  {| appointments := appointments st;
     filteredAppointments := filteredAppointments st;
     searchTerm := searchTerm st; currentView := currentView st;
     isModalOpen := isModalOpen st; editingId := editingId st;
     selectedQr := selectedQr st; previewId := previewId st;
     isChatOpen := o; chatMessage := chatMessage st;
     loading := loading st; error := error st; formData := formData st |}.

Definition setChatMessage (s : jsstring) (st : State) : State :=
  {| appointments := appointments st;
     filteredAppointments := filteredAppointments st;
     searchTerm := searchTerm st; currentView := currentView st;
     isModalOpen := isModalOpen st; editingId := editingId st;
     selectedQr := selectedQr st; previewId := previewId st;
     isChatOpen := isChatOpen st; chatMessage := s;
     loading := loading st; error := error st; formData := formData st |}.

(** After a submitted form: [setIsModalOpen(false); setEditingId(null);
    setFormData({...})]. *)
Definition closeForm (st : State) : State :=
  {| appointments := appointments st;
     filteredAppointments := filteredAppointments st;
     searchTerm := searchTerm st; currentView := currentView st;
     isModalOpen := false; editingId := None;
     selectedQr := selectedQr st; previewId := previewId st;
     isChatOpen := isChatOpen st; chatMessage := chatMessage st;
     loading := loading st; error := error st; formData := empty_form |}.

Section Filter.
(** [String.prototype.toLowerCase], supplied by the runtime. *)
Variable toLowerCase : jsstring → jsstring.
(** [new Date().toISOString().split('T')[0]] *)
Variable today : jsstring.

Definition is_status (s : AppointmentStatus) (a : Appointment) : bool :=
  bool_decide (status (data a) = s).

(** The effect that recomputes the list on screen from the current view
    and the search term. *)
Definition filterEffect (st : State) : State :=
  let baseList :=
    match currentView st with
    | agenda =>
        List.filter
          (λ a, (0 <=? code_unit_compare (date (data a)) today)%Z
                && negb (is_status COMPLETED a)
                && negb (is_status CANCELLED a))
          (appointments st)
    | history =>
        List.filter
          (λ a, (code_unit_compare (date (data a)) today <? 0)%Z
                || is_status COMPLETED a
                || is_status CANCELLED a)
          (appointments st)
    | dashboard => []
    end in
  if negb (truthy (trim (searchTerm st))) then
    setFilteredAppointments baseList st
  else
    let lowerTerm := toLowerCase (searchTerm st) in
    setFilteredAppointments
      (List.filter
         (λ appt,
            includes (toLowerCase (patientName (data appt))) lowerTerm
            || match patientEmail (data appt) with
               | Some e => includes (toLowerCase e) lowerTerm
               | None => false
               end
            || match patientPhone (data appt) with
               | Some p => includes p lowerTerm
               | None => false
               end)
         baseList)
      st.

(** A delivery of the collection to the dashboard: the service sorts it,
    the callback stores it, and the filter effect runs. *)
Definition onSnapshot_next (snapshot : list (jsstring * DocData))
    (st : State) : State :=
  filterEffect
    (StorageService.subscribeToAppointments (λ l, onData l st) snapshot).
End Filter.

Definition payload_dto (fd : FormData) (finalTreatment : jsstring)
  : NewAppointmentDTO :=
  {| dto_patientName := fd_patientName fd;
     dto_patientEmail := fd_patientEmail fd;
     dto_patientPhone := fd_patientPhone fd;
     dto_date := fd_date fd;
     dto_time := fd_time fd;
     dto_treatmentType := finalTreatment |}.

Definition payload_updates (fd : FormData) (finalTreatment : jsstring)
  : list FieldUpdate :=
  [set_patientName (Some (fd_patientName fd));
   set_patientEmail (Some (fd_patientEmail fd));
   set_patientPhone (Some (fd_patientPhone fd));
   set_date (Some (fd_date fd));
   set_time (Some (fd_time fd));
   set_treatmentType (Some finalTreatment)].

Definition handleSubmit (st : State) (elapsed : N) (autoId : jsstring)
    (reply : ServerReply) : M State :=
  try_catch
    (let fd := formData st in
     let finalTreatment :=
       if decide (fd_treatmentType fd = js "manual")
       then fd_customTreatment fd else fd_treatmentType fd in
     if negb (truthy (trim finalTreatment)) then
       alert (js "Por favor especifica el tratamiento.") >> ret st
     else
       (if truthy_opt (editingId st) then
          StorageService.updateAppointment (default [] (editingId st))
            (payload_updates fd finalTreatment) reply
        else
          StorageService.createAppointment (payload_dto fd finalTreatment)
            elapsed autoId reply) >>
       ret (closeForm st))
    (λ e, alert (js "Error al guardar la cita.") >> ret st).

(** [confirmed] is the answer to the [confirm(...)] dialog. *)
Definition handleDelete (docId : jsstring) (confirmed : bool)
    (reply : ServerReply) : M unit :=
  if confirmed then StorageService.deleteAppointment docId reply else ret tt.

Definition handleSendChat (st : State) (appointmentId : jsstring)
    (elapsed_send elapsed_id : N) (reply : ServerReply) : M State :=
  if negb (truthy (trim (chatMessage st))) then ret st
  else
    let* now := Date_now elapsed_send in
    StorageService.addMessage appointmentId
      {| draft_sender := doctor; draft_text := chatMessage st;
         draft_timestamp := now |} elapsed_id reply >>
    ret (setChatMessage [] st).

(** The chat form's [onSubmit]: [if (isChatOpen) handleSendChat(isChatOpen)]. *)
Definition chatForm_onSubmit (st : State) (elapsed_send elapsed_id : N)
    (reply : ServerReply) : M State :=
  if truthy_opt (isChatOpen st)
  then handleSendChat st (default [] (isChatOpen st))
         elapsed_send elapsed_id reply
  else ret st.

(** The appointments whose card shows the "Chat" button. *)
Definition chat_buttons (st : State) : list Appointment :=
  if truthy_opt (previewId st) then []
  else match currentView st with
       | dashboard => []
       | _ => if loading st then []
              else List.filter
                     (λ appt, negb (bool_decide (status (data appt) = CANCELLED)))
                     (filteredAppointments st)
       end.

(** The chat modal is on screen, and its submit button is enabled. *)
Definition chat_modal (st : State) : bool :=
  negb (truthy_opt (previewId st)) && truthy_opt (isChatOpen st).

Definition can_submit_chat (st : State) : bool :=
  chat_modal st && truthy (trim (chatMessage st)).

(** [appointments.find(a => a.id === isChatOpen)]: the appointment the open
    chat is about, as the dashboard last received it. *)
Definition chat_appointment (st : State) : option Appointment :=
  match isChatOpen st with
  | Some i => List.find (λ a, bool_decide (id a = i)) (appointments st)
  | None => None
  end.

(** The treatment a submitted form stands for ([finalTreatment] in
    [handleSubmit]). *)
Definition final_treatment (fd : FormData) : jsstring :=
  if decide (fd_treatmentType fd = js "manual")
  then fd_customTreatment fd else fd_treatmentType fd.

(** A click in the sidebar: [setCurrentView(v)]. *)
Definition setCurrentView (v : ViewState) (st : State) : State :=
  {| appointments := appointments st;
     filteredAppointments := filteredAppointments st;
     searchTerm := searchTerm st; currentView := v;
     isModalOpen := isModalOpen st; editingId := editingId st;
     selectedQr := selectedQr st; previewId := previewId st;
     isChatOpen := isChatOpen st; chatMessage := chatMessage st;
     loading := loading st; error := error st; formData := formData st |}.

(** The preset treatments of the form's select. *)
Definition TREATMENT_OPTIONS : list jsstring :=
  [js "Limpieza General"; js "Ortodoncia"; js "Extracci" ++ [243] ++ js "n";
   js "Blanqueamiento"; js "Revisi" ++ [243] ++ js "n Rutinaria"].

(** [o || ''] for an optional string. *)
Definition opt_or_empty (o : option jsstring) : jsstring :=
  match o with Some s => or_empty s | None => [] end.

Definition openForm (eid : option jsstring) (fd : FormData) (st : State)
  : State :=
  {| appointments := appointments st;
     filteredAppointments := filteredAppointments st;
     searchTerm := searchTerm st; currentView := currentView st;
     isModalOpen := true; editingId := eid;
     selectedQr := selectedQr st; previewId := previewId st;
     isChatOpen := isChatOpen st; chatMessage := chatMessage st;
     loading := loading st; error := error st; formData := fd |}.

Definition handleOpenCreateModal (st : State) : State :=
  openForm None empty_form st.

(** Typing in the form: [setFormData({...})]. *)
Definition setFormData (fd : FormData) (st : State) : State :=
  {| appointments := appointments st;
     filteredAppointments := filteredAppointments st;
     searchTerm := searchTerm st; currentView := currentView st;
     isModalOpen := isModalOpen st; editingId := editingId st;
     selectedQr := selectedQr st; previewId := previewId st;
     isChatOpen := isChatOpen st; chatMessage := chatMessage st;
     loading := loading st; error := error st; formData := fd |}.

Definition handleEditClick (appt : Appointment) (st : State) : State :=
  let isStandardTreatment :=
    bool_decide (treatmentType (data appt) ∈ TREATMENT_OPTIONS) in
  openForm (Some (id appt))
    {| fd_patientName := patientName (data appt);
       fd_patientEmail := opt_or_empty (patientEmail (data appt));
       fd_patientPhone := opt_or_empty (patientPhone (data appt));
       fd_date := date (data appt);
       fd_time := time (data appt);
       fd_treatmentType :=
         if isStandardTreatment then treatmentType (data appt) else js "manual";
       fd_customTreatment :=
         if isStandardTreatment then [] else treatmentType (data appt) |}
    st.

(** The subscription's error callback: [setLoading(false);
    setError("Error al cargar las citas.")]. *)
Definition onSubscriptionError (st : State) : State :=
  {| appointments := appointments st;
     filteredAppointments := filteredAppointments st;
     searchTerm := searchTerm st; currentView := currentView st;
     isModalOpen := isModalOpen st; editingId := editingId st;
     selectedQr := selectedQr st; previewId := previewId st;
     isChatOpen := isChatOpen st; chatMessage := chatMessage st;
     loading := false; error := Some (js "Error al cargar las citas.");
     formData := formData st |}.

(** The three numbers of [DashboardStats]; [today] is
    [new Date().toISOString().split('T')[0]]. *)
Record Stats := {
  totalAppointments : nat;
  cancelled : nat;
  completed : nat
}.

Definition DashboardStats (today : jsstring) (st : State) : Stats :=
  {| totalAppointments := length (appointments st);
     cancelled := length (List.filter (is_status CANCELLED) (appointments st));
     completed :=
       length (List.filter
                 (λ a, is_status COMPLETED a
                       || ((code_unit_compare (date (data a)) today <? 0)%Z
                           && is_status SCHEDULED a))
                 (appointments st)) |}.

(** [href.split('#')[0]]: the text before the first ['#']. *)
Fixpoint before_hash (href : jsstring) : jsstring :=
  match href with
  | [] => []
  | c :: href' => if c =? 35 then [] else c :: before_hash href'
  end.

(** The link of the QR code and of the share messages:
    [`${currentUrl}#appt-${id}`] with
    [currentUrl = window.location.href.split('#')[0]]. *)
Definition share_link (href docId : jsstring) : jsstring :=
  before_hash href ++ js "#appt-" ++ docId.

(** In the chat modal: [legacyComment && messages.length === 0]. *)
Definition legacy_comment_shown (appt : Appointment) : bool :=
  truthy_opt (patientComments (data appt))
  && bool_decide (length (message_list_of appt) = 0%nat).

End AdminDashboard.

(** ** [App.tsx] *)

(** [s.replace(pattern, replacement)] with a string pattern: the first
    occurrence is replaced. *)
Fixpoint replace_first (s pattern replacement : jsstring) : jsstring :=
  if starts_with s pattern then replacement ++ drop (length pattern) s
  else match s with
       | [] => []
       | c :: s' => c :: replace_first s' pattern replacement
       end.

(** A character that a URL fragment keeps as it is: printable ASCII other
    than the space, the double quote, ['<'], ['>'] and the backquote.  Any other
    character the browser percent-encodes or strips. *)
Definition fragment_safe (c : N) : bool :=
  (33 <=? c) && (c <=? 126)
  && negb (c =? 34) && negb (c =? 60) && negb (c =? 62) && negb (c =? 96).

(** [window.location.hash] once the browser has opened the address [href]:
    the fragment with its ['#'], or the empty string when there is no
    fragment or an empty one.  [None] when the fragment holds a character
    that the browser would encode or strip: what the hash is then is not
    modelled. *)
Fixpoint location_hash (href : jsstring) : option jsstring :=
  match href with
  | [] => Some []
  | c :: href' =>
      if c =? 35 then
        if forallb fragment_safe href'
        then Some (if truthy href' then href else [])
        else None
      else location_hash href'
  end.

Module App.

Definition ADMIN_EMAIL : jsstring := js "gerito.diseno@gmail.com".

(** The signed-in user, as far as the component reads it. *)
Record User := { email : option jsstring }.

(** The component's [useState] cells. *)
Record State := {
  currentHash : jsstring;
  user : option User;
  loadingAuth : bool;
  isAuthorized : bool;
  darkMode : bool
}.

(** What the component reads and writes in the browser. *)
Record Browser := {
  hash : jsstring;                    (* window.location.hash *)
  theme_item : option jsstring;       (* localStorage 'theme' *)
  dark_class : bool;                  (* <html> has the class 'dark' *)
  prefers_dark : bool                 (* matchMedia('(prefers-color-scheme: dark)') *)
}.

Definition with_theme (item : option jsstring) (cls : bool) (b : Browser)
  : Browser :=
  {| hash := hash b; theme_item := item; dark_class := cls;
     prefers_dark := prefers_dark b |}.

Definition with_hash (h : jsstring) (b : Browser) : Browser :=
  {| hash := h; theme_item := theme_item b; dark_class := dark_class b;
     prefers_dark := prefers_dark b |}.

Definition setDarkMode (d : bool) (st : State) : State :=
  {| currentHash := currentHash st; user := user st;
     loadingAuth := loadingAuth st; isAuthorized := isAuthorized st;
     darkMode := d |}.

(** The first render and the third step of the mount effect: the theme. *)
Definition mount (b : Browser) : State * Browser :=
  let st := {| currentHash := hash b; user := None; loadingAuth := true;
               isAuthorized := false; darkMode := false |} in
  let savedTheme := theme_item b in
  if bool_decide (savedTheme = Some (js "dark"))
     || (negb (truthy_opt savedTheme) && prefers_dark b)
  then (setDarkMode true st, with_theme (theme_item b) true b)
  else (setDarkMode false st, with_theme (theme_item b) false b).

Definition handleHashChange (st : State) (b : Browser) : State :=
  {| currentHash := hash b; user := user st;
     loadingAuth := loadingAuth st; isAuthorized := isAuthorized st;
     darkMode := darkMode st |}.

(** The [onAuthStateChanged] callback. *)
Definition onAuthStateChanged (currentUser : option User) (st : State) : State :=
  {| currentHash := currentHash st; user := currentUser;
     loadingAuth := false;
     isAuthorized :=
       match currentUser with
       | Some u => bool_decide (email u = Some ADMIN_EMAIL)
       | None => false
       end;
     darkMode := darkMode st |}.

Definition toggleDarkMode (st : State) (b : Browser) : State * Browser :=
  (setDarkMode (negb (darkMode st)) st,
   if negb (darkMode st)
   then with_theme (Some (js "dark")) true b
   else with_theme (Some (js "light")) false b).

Definition isPatientView (st : State) : bool :=
  starts_with (currentHash st) (js "#appt-").

Definition appointmentId (st : State) : jsstring :=
  if isPatientView st then replace_first (currentHash st) (js "#appt-") []
  else [].

Inductive Screen :=
  | AuthSpinner
  | PatientScreen (appointmentId : jsstring)
  | LoginScreen
  | AccessDenied (u : User)
  | AdminScreen.

Definition render (st : State) : Screen :=
  if loadingAuth st then AuthSpinner
  else if isPatientView st then PatientScreen (appointmentId st)
  else match user st with
       | None => LoginScreen
       | Some u => if negb (isAuthorized st) then AccessDenied u
                   else AdminScreen
       end.

(** What can happen to the mounted component. *)
Inductive Event :=
  | Navigate (h : jsstring)           (* the fragment changes; 'hashchange' fires *)
  | BackToAdmin                       (* [window.location.hash = ''] *)
  | AuthStateChanged (currentUser : option User)
  | ToggleDarkMode.

Definition step (p : State * Browser) (ev : Event) : State * Browser :=
  let '(st, b) := p in
  match ev with
  | Navigate h => (handleHashChange st (with_hash h b), with_hash h b)
  | BackToAdmin => (handleHashChange st (with_hash [] b), with_hash [] b)
  | AuthStateChanged u => (onAuthStateChanged u st, b)
  | ToggleDarkMode => toggleDarkMode st b
  end.

Definition run (events : list Event) (b : Browser) : State * Browser :=
  foldl step (mount b) events.

End App.

(** ** Order of appointments *)

(** The order that the comparator of [subscribeToAppointments] sorts by: an
    earlier date in the collation order, or the same date and an earlier
    time. *)
Definition collates_before (a b : Appointment) : Prop :=
  (localeCompare (date (data a)) (date (data b)) < 0)%Z
  ∨ (date (data a) = date (data b)
     ∧ (localeCompare (time (data a)) (time (data b)) < 0)%Z).

Definition is_digit (c : N) : bool := (48 <=? c) && (c <=? 57).

(** A string has a format when it has the format's length and, at each
    position, the character the format gives ([Some c]) or a digit ([None]). *)
Fixpoint has_format (format : list (option N)) (s : jsstring) : bool :=
  match format, s with
  | [], [] => true
  | Some c :: format', x :: s' => (x =? c) && has_format format' s'
  | None :: format', x :: s' => is_digit x && has_format format' s'
  | _, _ => false
  end.

(** [YYYY-MM-DD], the value of a date input. *)
Definition date_format : list (option N) :=
  [None; None; None; None; Some 45; None; None; Some 45; None; None].

(** [HH:MM], the value of a time input. *)
Definition time_format : list (option N) :=
  [None; None; Some 58; None; None].

(** The date and the time of a document are zero-padded as the form's inputs
    write them. *)
Definition well_formed (d : DocData) : bool :=
  has_format date_format (date d) && has_format time_format (time d).


(** The (date, time) pair of [a] is lexicographically earlier than that of
    [b]: an earlier date, or the same date and an earlier time, each compared
    as strings. *)
Definition earlier (a b : Appointment) : Prop :=
  (code_unit_compare (date (data a)) (date (data b)) < 0)%Z
  ∨ (date (data a) = date (data b)
     ∧ (code_unit_compare (time (data a)) (time (data b)) < 0)%Z).

Definition same_slot (a b : Appointment) : Prop :=
  date (data a) = date (data b) ∧ time (data a) = time (data b).

Global Instance same_slot_dec (a b : Appointment) : Decision (same_slot a b).
Proof. unfold same_slot. apply _. Defined.

(** ** The system as a whole *)

(** *** Concurrent chat appends *)

(** The server applies the [arrayUnion] writes to one document one at a time,
    in the order in which they arrive. *)
Definition server_append (d : DocData) (m : ChatMessage) : DocData :=
  merge_fields [set_messages (Some (arrayUnion [m]))] d.


(** The message list as the views read it: [appt.messages || []]. *)
Definition message_list (d : DocData) : list ChatMessage :=
  default [] (messages d).


(** *** Every handler that reaches the store *)

(** One user action, with the state of the component it happens in and what
    the environment does while it runs.  Any component state is allowed. *)
Inductive Action :=
  | AdminSubmit (st : AdminDashboard.State) (elapsed : N) (autoId : jsstring)
      (reply : ServerReply)
  | AdminDelete (docId : jsstring) (confirmed : bool) (reply : ServerReply)
  | AdminChat (st : AdminDashboard.State) (elapsed_send elapsed_id : N)
      (reply : ServerReply)
  | PatientSend (st : PatientView.State) (elapsed_send elapsed_id : N)
      (reply : ServerReply)
  | PatientCancel (st : PatientView.State) (reply : ServerReply)
  | PatientResume (st : PatientView.State) (confirmed : bool)
      (reply : ServerReply).

Definition perform (a : Action) (w : World) : World :=
  match a with
  | AdminSubmit st elapsed autoId reply =>
      (AdminDashboard.handleSubmit st elapsed autoId reply w).1
  | AdminDelete docId confirmed reply =>
      (AdminDashboard.handleDelete docId confirmed reply w).1
  | AdminChat st e1 e2 reply =>
      (AdminDashboard.chatForm_onSubmit st e1 e2 reply w).1
  | PatientSend st e1 e2 reply =>
      (PatientView.handleSendMessage st e1 e2 reply w).1
  | PatientCancel st reply =>
      (PatientView.handleCancel st reply w).1
  | PatientResume st confirmed reply =>
      (PatientView.handleResume st confirmed reply w).1
  end.

Definition run (actions : list Action) (w : World) : World :=
  foldl (λ w a, perform a w) w actions.

(** The world before anything was created. *)
Definition empty_world (t0 : N) : World :=
  {| docs := ∅; clock := t0; calls := []; console := []; alerts := [] |}.

(** The values a store call writes to the field [status]. *)
Definition status_writes (c : StoreCall) : list (option AppointmentStatus) :=
  match c with
  | CallAddDoc d => [Some (status d)]
  | CallUpdateDoc _ updates =>
      omap (λ u, match u with set_status v => Some v | _ => None end) updates
  | _ => []
  end.

(** The final world of a computation and whether it returned. *)
Definition world_after {A} (r : World * Completion A) : World := r.1.

Definition returned {A} (r : World * Completion A) : option A :=
  match r.2 with Returned a => Some a | Thrown _ => None end.

(** *** The lifecycle invariant *)

(** No stored appointment has the status COMPLETED. *)
Definition no_completed (w : World) : Prop :=
  ∀ docId d, docs w !! docId = Some d → status d ≠ COMPLETED.

(** Every store call made so far wrote nothing but SCHEDULED or CANCELLED to
    the field [status]. *)
Definition status_writes_ok (w : World) : Prop :=
  ∀ c v, c ∈ calls w → v ∈ status_writes c →
         v = Some SCHEDULED ∨ v = Some CANCELLED.

Definition lifecycle_ok (w : World) : Prop :=
  no_completed w ∧ status_writes_ok w.


Definition preserves {A} (m : M A) : Prop :=
  ∀ w, lifecycle_ok w → lifecycle_ok (m w).1.

Definition good_update (u : FieldUpdate) : Prop :=
  match u with
  | set_status v => v = Some SCHEDULED ∨ v = Some CANCELLED
  | _ => True
  end.

(** For an action that creates an appointment, the id the store assigns is
    not in use (the store generates it). *)
Definition assigns_new_id (a : Action) (w : World) : Prop :=
  match a with
  | AdminSubmit _ _ autoId _ => docs w !! autoId = None
  | _ => True
  end.

(** *** A chat left open on the dashboard *)

Module LateChat.

Definition apptId : jsstring := js "a1".

Definition appt : DocData :=
  StorageService.newAppointment
    {| dto_patientName := js "Juan"; dto_patientEmail := [];
       dto_patientPhone := []; dto_date := js "2024-05-01";
       dto_time := js "10:00"; dto_treatmentType := js "Limpieza General" |}
    1000.

Definition today : jsstring := js "2024-04-30".

Definition world0 : World :=
  {| docs := {[ apptId := appt ]}; clock := 1000; calls := [];
     console := []; alerts := [] |}.

(** The dashboard receives the collection. *)
Definition admin0 : AdminDashboard.State :=
  AdminDashboard.onSnapshot_next (λ s, s) today
    (map_to_list (docs world0)) AdminDashboard.initial.

(** The doctor clicks "Chat" on the card of the scheduled appointment
    ([setIsChatOpen(appt.id)]) and types a message. *)
Definition admin1 : AdminDashboard.State :=
  AdminDashboard.setChatMessage (js "Hola")
    (AdminDashboard.setIsChatOpen (Some apptId) admin0).

(** Meanwhile the patient cancels the appointment from the patient view. *)
Definition patient1 : PatientView.State :=
  PatientView.setCancelReason (js "Me enfermo")
    (PatientView.onSnapshot_next apptId (docs world0 !! apptId)
       PatientView.initial).

Definition world1 : World :=
  world_after (PatientView.handleCancel patient1 Accept world0).

(** The dashboard receives the cancelled appointment; the chat is still open. *)
Definition admin2 : AdminDashboard.State :=
  AdminDashboard.onSnapshot_next (λ s, s) today
    (map_to_list (docs world1)) admin1.

(** The doctor submits the chat form. *)
Definition world2 : World :=
  world_after (AdminDashboard.chatForm_onSubmit admin2 5 0 Accept world1).

End LateChat.

(** *** Times that are not zero-padded *)

Module UnpaddedTimes.

Definition at_time (t : jsstring) : DocData :=
  StorageService.newAppointment
    {| dto_patientName := js "Juan"; dto_patientEmail := [];
       dto_patientPhone := []; dto_date := js "2024-05-01";
       dto_time := t; dto_treatmentType := js "Limpieza General" |}
    1000.

(** Three appointments of one day, written to the store by a client that does
    not pad the hour. *)
Definition snapshot : list (jsstring * DocData) :=
  [(js "w", at_time (js "10:00")); (js "x", at_time (js "1:00"));
   (js "y", at_time (js "9:30"))].

(** Three appointments as the form writes them. *)
Definition padded : list (jsstring * DocData) :=
  [(js "b", at_time (js "10:00")); (js "a", at_time (js "09:30"));
   (js "c", at_time (js "10:00"))].

End UnpaddedTimes.

(** *** Two identical sends *)

Module SameMillisecond.

(** The patient view of the scheduled appointment, with a message typed. *)
Definition patient_view : PatientView.State :=
  PatientView.setMessageText (js "Llego tarde")
    (PatientView.onSnapshot_next LateChat.apptId
       (docs LateChat.world0 !! LateChat.apptId) PatientView.initial).

(** The dashboard with the chat of that appointment open. *)
Definition admin_view : AdminDashboard.State :=
  AdminDashboard.setChatMessage (js "Hola") 
    (AdminDashboard.setIsChatOpen (Some LateChat.apptId) LateChat.admin0).

(** The doctor sends one message; the patient's message is submitted twice
    within the same millisecond (the form submitted twice before the first
    send completes, or two open copies of the patient link); the store
    accepts all three writes. *)
Definition sends : list Action :=
  [AdminChat admin_view 0 0 Accept;
   PatientSend patient_view 0 0 Accept;
   PatientSend patient_view 0 0 Accept].

Definition doctor_message : ChatMessage :=
  {| msg_id := js "1000"; sender := doctor; text := js "Hola";
     timestamp := 1000 |}.

Definition patient_message : ChatMessage :=
  {| msg_id := js "1000"; sender := patient; text := js "Llego tarde";
     timestamp := 1000 |}.

Definition stored : option (list ChatMessage) :=
  message_list <$> docs (run sends LateChat.world0) !! LateChat.apptId.

End SameMillisecond.

(** * Properties *)

(** ** Strings *)

Lemma trimStart_nil_iff (s : jsstring) :
  trimStart s = [] ↔ Forall (λ c, is_white_space c = true) s.
Proof.
  induction s as [|c s IH]; simpl.
  - split; [constructor | done].
  - destruct (is_white_space c) eqn:Hc.
    + rewrite IH. split.
      * intros H. by constructor.
      * intros H. by inversion H.
    + split; [done |]. intros H. inversion H; congruence.
Qed.

Lemma trimStart_white (s : jsstring) :
  Forall (λ c, is_white_space c = true) s → trimStart s = [].
Proof. apply trimStart_nil_iff. Qed.

Lemma trimStart_suffix (s : jsstring) : trimStart s `suffix_of` s.
Proof.
  induction s as [|c s IH]; simpl; [done |].
  destruct (is_white_space c); [by apply suffix_cons_r | done].
Qed.

Lemma trimStart_idemp (s : jsstring) : trimStart (trimStart s) = trimStart s.
Proof.
  induction s as [|c s IH]; simpl; [done |].
  destruct (is_white_space c) eqn:Hc; [done |]. simpl. by rewrite Hc.
Qed.

(** [trim] yields the empty string exactly on the strings that consist of
    white space only (the empty string among them). *)
Lemma trim_nil_iff (s : jsstring) :
  trim s = [] ↔ Forall (λ c, is_white_space c = true) s.
Proof.
  unfold trim, trimEnd. split.
  - intros H. apply trimStart_nil_iff.
    assert (Hr : trimStart (rev (trimStart s)) = []).
    { apply (f_equal (@rev N)) in H. by rewrite rev_involutive in H. }
    apply trimStart_nil_iff in Hr.
    apply List.Forall_rev in Hr. rewrite rev_involutive in Hr.
    apply trimStart_nil_iff in Hr. by rewrite trimStart_idemp in Hr.
  - intros H. apply trimStart_nil_iff in H. by rewrite H.
Qed.

Lemma truthy_trim_false (s : jsstring) :
  truthy (trim s) = false ↔ Forall (λ c, is_white_space c = true) s.
Proof.
  rewrite <- trim_nil_iff. unfold truthy. by destruct (trim s).
Qed.

Lemma not_all_white_space (s : jsstring) :
  ¬ Forall (λ c, is_white_space c = true) s
  ↔ Exists (λ c, is_white_space c = false) s.
Proof.
  induction s as [|c s IH].
  - split; [intros H; destruct H; constructor | intros H; inversion H].
  - split.
    + intros H. destruct (is_white_space c) eqn:Hc.
      * apply Exists_cons_tl, IH. intros HF. apply H. by constructor.
      * by apply Exists_cons_hd.
    + intros H HF. inversion HF as [|? ? Hc Hs]; subst.
      inversion H as [? ? Hc'|? ? Hs']; subst; [congruence |].
      by apply IH in Hs'.
Qed.

Lemma truthy_trim_true (s : jsstring) :
  truthy (trim s) = true ↔ Exists (λ c, is_white_space c = false) s.
Proof.
  rewrite <- not_all_white_space, <- truthy_trim_false.
  destruct (truthy (trim s)); split; congruence.
Qed.

(** ** The storage service: fetch, create, failures *)

(** Running a service call: unfold the operations down to the world they
    produce. *)
Ltac run_service :=
  unfold StorageService.getAppointmentById, StorageService.createAppointment,
    StorageService.updateAppointment, StorageService.addMessage,
    StorageService.deleteAppointment, world_after, returned,
    try_catch, bind, ret, throw, getDoc, addDoc, updateDoc, deleteDoc,
    record_call, console_error, alert, Date_now, with_docs in *;
  cbn -[N.add decide js] in *.

(** C1. Creating an appointment from the six fields of the DTO and then
    fetching the document under the id the store assigned yields exactly
    those fields with [status = SCHEDULED], that id, an empty message list,
    no other field, and a [createdAt] that is not earlier than the clock at
    the time of the call. *)
Theorem create_then_getAppointmentById
    (dto : NewAppointmentDTO) (elapsed : N) (autoId : jsstring) (w : World) :
  let created := StorageService.createAppointment dto elapsed autoId Accept w in
  let fetched :=
    StorageService.getAppointmentById autoId Accept (world_after created) in
  returned created = Some tt ∧
  returned fetched =
    Some (Some {| id := autoId;
                  data := {| patientName := dto_patientName dto;
                             patientEmail := Some (dto_patientEmail dto);
                             patientPhone := Some (dto_patientPhone dto);
                             date := dto_date dto;
                             time := dto_time dto;
                             treatmentType := dto_treatmentType dto;
                             status := SCHEDULED;
                             doctorNotes := None;
                             patientComments := None;
                             cancellationReason := None;
                             messages := Some [];
                             createdAt := clock w + elapsed |} |}) ∧
  clock w ≤ clock w + elapsed.
Proof.
  cbn zeta. run_service. split; [done |]. split; [| lia].
  by rewrite lookup_insert_eq.
Qed.

(** C6. [getAppointmentById] never throws.  It returns [undefined] when no
    document has the id, and it returns the same [undefined] when the fetch is
    refused (after one [console.error]), whatever the store holds: the caller
    sees the same result in both cases. *)
Theorem getAppointmentById_absent
    (docId : jsstring) (w w' : World) (e : FirestoreError)
    (Hmissing : docs w !! docId = None) :
  let not_found := StorageService.getAppointmentById docId Accept w in
  let failed := StorageService.getAppointmentById docId (Reject e) w' in
  returned not_found = Some None ∧
  returned failed = Some None ∧
  returned not_found = returned failed ∧
  console (world_after failed)
    = console w' ++ [(js "Error getting document:", e)] ∧
  (∀ reply w'', is_Some (returned
                  (StorageService.getAppointmentById docId reply w''))).
Proof.
  cbn zeta. run_service. rewrite Hmissing; cbn.
  split_and!; try done.
  intros reply w''. destruct reply; cbn; [| by eexists].
  destruct (docs w'' !! docId); cbn; by eexists.
Qed.

Lemma getAppointmentById_absent_witness :
  returned (StorageService.getAppointmentById (js "x") Accept (empty_world 0))
  = returned (StorageService.getAppointmentById (js "x")
                (Reject {| code := js "unavailable" |}) LateChat.world0).
Proof.
  apply (getAppointmentById_absent (js "x") (empty_world 0) LateChat.world0
           {| code := js "unavailable" |}).
  reflexivity.
Defined.

(** C7. When the store refuses the request with error [e], [updateAppointment],
    [addMessage] and [deleteAppointment] log once and return normally, leaving
    the collection as it was; none of them ever throws.  [createAppointment]
    logs, shows the permission alert exactly when [e.code] is
    ['permission-denied'], and then throws [e] again. *)
Theorem write_failures
    (docId : jsstring) (updates : list FieldUpdate) (message : MessageDraft)
    (dto : NewAppointmentDTO) (elapsed : N) (autoId : jsstring)
    (e : FirestoreError) (w : World) :
  let upd := StorageService.updateAppointment docId updates (Reject e) w in
  let add := StorageService.addMessage docId message elapsed (Reject e) w in
  let del := StorageService.deleteAppointment docId (Reject e) w in
  let cre := StorageService.createAppointment dto elapsed autoId (Reject e) w in
  (upd.2 = Returned tt ∧ docs upd.1 = docs w ∧
   ∃ err, console upd.1 = console w ++ [(js "Error updating appointment:", err)]) ∧
  (add.2 = Returned tt ∧ docs add.1 = docs w ∧
   console add.1 = console w ++ [(js "Error sending message:", e)]) ∧
  (del.2 = Returned tt ∧ docs del.1 = docs w ∧
   console del.1 = console w ++ [(js "Error deleting appointment:", e)]) ∧
  (cre.2 = Thrown e ∧ docs cre.1 = docs w ∧
   console cre.1 = console w ++ [(js "Error creating appointment:", e)] ∧
   alerts cre.1 =
     alerts w ++ (if decide (code e = js "permission-denied")
                  then [StorageService.no_permission_alert] else [])) ∧
  (∀ reply w',
     (StorageService.updateAppointment docId updates reply w').2 = Returned tt ∧
     (StorageService.addMessage docId message elapsed reply w').2 = Returned tt ∧
     (StorageService.deleteAppointment docId reply w').2 = Returned tt).
Proof.
  cbn zeta. run_service.
  destruct (existsb is_undefined updates); cbn -[N.add decide js];
    (destruct (decide (code e = js "permission-denied")); cbn -[N.add js];
     rewrite ?app_nil_r;
     (split_and!; try done; try (by eexists);
      intros reply w'; destruct reply; cbn -[N.add];
      split_and!; try done; by destruct (docs w' !! docId))).
Qed.

(** ** The order of the subscription *)

Lemma code_unit_compare_range (a b : jsstring) :
  code_unit_compare a b = (-1)%Z ∨ code_unit_compare a b = 0%Z
  ∨ code_unit_compare a b = 1%Z.
Proof.
  revert b. induction a as [|x a IH]; intros [|y b]; simpl; auto.
  destruct (N.compare x y); auto.
Qed.

Lemma code_unit_compare_refl (a : jsstring) : code_unit_compare a a = 0%Z.
Proof. induction a as [|x a IH]; simpl; [done |]. by rewrite N.compare_refl. Qed.

Lemma code_unit_compare_eq (a b : jsstring) :
  code_unit_compare a b = 0%Z → a = b.
Proof.
  revert b. induction a as [|x a IH]; intros [|y b]; simpl; try done.
  destruct (N.compare_spec x y) as [-> | |]; try done.
  intros H. f_equal. by apply IH.
Qed.

Lemma code_unit_compare_antisym (a b : jsstring) :
  code_unit_compare b a = (- code_unit_compare a b)%Z.
Proof.
  revert b. induction a as [|x a IH]; intros [|y b]; simpl; try done.
  rewrite (N.compare_antisym x y).
  destruct (N.compare x y); simpl; [apply IH | done | done].
Qed.

Lemma code_unit_compare_trans (a b c : jsstring) :
  (code_unit_compare a b ≤ 0)%Z → (code_unit_compare b c ≤ 0)%Z →
  (code_unit_compare a c ≤ 0)%Z.
Proof.
  revert b c. induction a as [|x a IH]; intros [|y b] [|z c]; simpl; try lia.
  destruct (N.compare_spec x y); destruct (N.compare_spec y z);
    destruct (N.compare_spec x z); try lia.
  apply IH.
Qed.

Lemma code_unit_compare_lt_trans (a b c : jsstring) :
  (code_unit_compare a b < 0)%Z → (code_unit_compare b c < 0)%Z →
  (code_unit_compare a c < 0)%Z.
Proof.
  intros Hab Hbc.
  assert (Hac : (code_unit_compare a c ≤ 0)%Z)
    by (apply (code_unit_compare_trans a b c); lia).
  destruct (code_unit_compare_range a c) as [H | [H | H]]; try lia.
  apply code_unit_compare_eq in H as ->.
  rewrite (code_unit_compare_antisym b c) in Hab. lia.
Qed.

Lemma or_empty_id (s : jsstring) : or_empty s = s.
Proof. by destruct s. Qed.

Lemma collation_key_inj (x y : N) : collation_key x = collation_key y → x = y.
Proof.
  unfold collation_key.
  destruct (N.eqb_spec x 45), (N.eqb_spec x 58), (N.leb_spec 48 x),
    (N.leb_spec x 57), (N.eqb_spec y 45), (N.eqb_spec y 58),
    (N.leb_spec 48 y), (N.leb_spec y 57); simpl; lia.
Qed.

Lemma collation_keys_inj (a b : jsstring) :
  collation_key <$> a = collation_key <$> b → a = b.
Proof.
  revert b. induction a as [|x a IH]; intros [|y b]; simpl; try done.
  intros [= Hxy Hab]. f_equal; [by apply collation_key_inj | by apply IH].
Qed.

Lemma localeCompare_refl (a : jsstring) : localeCompare a a = 0%Z.
Proof. apply code_unit_compare_refl. Qed.

Lemma localeCompare_eq (a b : jsstring) : localeCompare a b = 0%Z → a = b.
Proof.
  intros H. by apply collation_keys_inj, code_unit_compare_eq.
Qed.

Lemma localeCompare_antisym (a b : jsstring) :
  localeCompare b a = (- localeCompare a b)%Z.
Proof. apply code_unit_compare_antisym. Qed.

Lemma localeCompare_lt_trans (a b c : jsstring) :
  (localeCompare a b < 0)%Z → (localeCompare b c < 0)%Z →
  (localeCompare a c < 0)%Z.
Proof. apply code_unit_compare_lt_trans. Qed.

(** On two strings of one format the collation order is the code-unit
    order. *)
Lemma localeCompare_format (format : list (option N)) (a b : jsstring) :
  has_format format a = true → has_format format b = true →
  localeCompare a b = code_unit_compare a b.
Proof.
  unfold localeCompare. revert a b.
  induction format as [|[c|] format IH]; intros [|x a] [|y b]; simpl;
    try done.
  - intros [Hx Ha]%andb_true_iff [Hy Hb]%andb_true_iff.
    apply N.eqb_eq in Hx as ->. apply N.eqb_eq in Hy as ->.
    rewrite !N.compare_refl. by apply IH.
  - intros [Hx Ha]%andb_true_iff [Hy Hb]%andb_true_iff.
    unfold is_digit in Hx, Hy.
    apply andb_true_iff in Hx as [Hx1 Hx2]. apply andb_true_iff in Hy as [Hy1 Hy2].
    assert (Hkx : collation_key x = x - 46).
    { unfold collation_key. rewrite Hx1, Hx2.
      apply N.leb_le in Hx1, Hx2.
      destruct (N.eqb_spec x 45), (N.eqb_spec x 58); simpl; lia. }
    assert (Hky : collation_key y = y - 46).
    { unfold collation_key. rewrite Hy1, Hy2.
      apply N.leb_le in Hy1, Hy2.
      destruct (N.eqb_spec y 45), (N.eqb_spec y 58); simpl; lia. }
    rewrite Hkx, Hky. apply N.leb_le in Hx1, Hy1.
    destruct (N.compare_spec (x - 46) (y - 46)), (N.compare_spec x y);
      try lia; try done.
    by apply IH.
Qed.

Lemma compareAppointments_neg (a b : Appointment) :
  (compareAppointments a b < 0)%Z ↔ collates_before a b.
Proof.
  unfold compareAppointments, collates_before. rewrite !or_empty_id.
  destruct (Z.eqb_spec (localeCompare (date (data a)) (date (data b))) 0)
    as [H0 | Hn]; simpl.
  - pose proof (localeCompare_eq _ _ H0) as Hd. split; [auto |].
    intros [H | [_ H]]; lia.
  - split; [auto |]. intros [H | [H _]]; [done |].
    rewrite H, localeCompare_refl in Hn. done.
Qed.

Lemma compareAppointments_zero (a b : Appointment) :
  compareAppointments a b = 0%Z ↔ same_slot a b.
Proof.
  unfold compareAppointments, same_slot. rewrite !or_empty_id.
  destruct (Z.eqb_spec (localeCompare (date (data a)) (date (data b))) 0)
    as [H0 | Hn]; simpl.
  - pose proof (localeCompare_eq _ _ H0) as Hd. split.
    + intros H. split; [done |]. by apply localeCompare_eq.
    + intros [_ ->]. apply localeCompare_refl.
  - split; [done |]. intros [H _].
    rewrite H, localeCompare_refl in Hn. done.
Qed.

Lemma compareAppointments_antisym (a b : Appointment) :
  compareAppointments b a = (- compareAppointments a b)%Z.
Proof.
  unfold compareAppointments. rewrite !or_empty_id.
  rewrite (localeCompare_antisym (date (data a)) (date (data b))).
  rewrite (localeCompare_antisym (time (data a)) (time (data b))).
  destruct (Z.eqb_spec (localeCompare (date (data a)) (date (data b))) 0)
    as [-> | Hn]; simpl; [done |].
  destruct (Z.eqb_spec (- localeCompare (date (data a)) (date (data b))) 0);
    simpl; [lia | done].
Qed.

Lemma compareAppointments_trans (a b c : Appointment) :
  (compareAppointments a b ≤ 0)%Z → (compareAppointments b c ≤ 0)%Z →
  (compareAppointments a c ≤ 0)%Z.
Proof.
  intros Hab Hbc.
  apply Z.le_lteq in Hab as [Hab | Hab]; apply Z.le_lteq in Hbc as [Hbc | Hbc].
  - apply Z.lt_le_incl, compareAppointments_neg.
    apply compareAppointments_neg in Hab as [Hab | [Hd Hab]];
      apply compareAppointments_neg in Hbc as [Hbc | [Hd' Hbc]].
    + left. by apply (localeCompare_lt_trans _ (date (data b))).
    + left. by rewrite <- Hd'.
    + left. by rewrite Hd.
    + right. split; [congruence |].
      by apply (localeCompare_lt_trans _ (time (data b))).
  - apply compareAppointments_zero in Hbc as [Hd Ht].
    apply Z.lt_le_incl, compareAppointments_neg.
    apply compareAppointments_neg in Hab. unfold collates_before in *.
    by rewrite <- Hd, <- Ht.
  - apply compareAppointments_zero in Hab as [Hd Ht].
    apply Z.lt_le_incl, compareAppointments_neg.
    apply compareAppointments_neg in Hbc. unfold collates_before in *.
    by rewrite Hd, Ht.
  - apply compareAppointments_zero in Hab as [Hd Ht].
    apply compareAppointments_zero in Hbc as [Hd' Ht'].
    apply Z.eq_le_incl, compareAppointments_zero. split; congruence.
Qed.

(** For documents whose date and time are zero-padded, the order the
    comparator sorts by is the lexicographic order of the strings. *)
Lemma earlier_collates_before (a b : Appointment) :
  well_formed (data a) = true → well_formed (data b) = true →
  earlier a b ↔ collates_before a b.
Proof.
  unfold well_formed. intros [Hda Hta]%andb_true_iff [Hdb Htb]%andb_true_iff.
  unfold earlier, collates_before.
  by rewrite (localeCompare_format _ _ _ Hda Hdb),
    (localeCompare_format _ _ _ Hta Htb).
Qed.

(** What [Array.prototype.sort] guarantees for a comparator that is
    antisymmetric and transitive. *)
Section Sort.
Context {A : Type} (cmp : A → A → Z).
Hypothesis cmp_antisym : ∀ a b, cmp b a = (- cmp a b)%Z.
Hypothesis cmp_trans :
  ∀ a b c, (cmp a b ≤ 0)%Z → (cmp b c ≤ 0)%Z → (cmp a c ≤ 0)%Z.

Lemma sort_insert_perm (x : A) (l : list A) : sort_insert cmp x l ≡ₚ x :: l.
Proof.
  induction l as [|y l IH]; simpl; [done |].
  destruct (cmp x y <=? 0)%Z; [done |].
  rewrite IH. apply Permutation_swap.
Qed.

Lemma Array_sort_perm (l : list A) : Array_sort cmp l ≡ₚ l.
Proof.
  induction l as [|x l IH]; simpl; [done |].
  rewrite sort_insert_perm. by rewrite IH.
Qed.

Lemma sort_insert_sorted (x : A) (l : list A) :
  StronglySorted (λ a b, (cmp a b ≤ 0)%Z) l →
  StronglySorted (λ a b, (cmp a b ≤ 0)%Z) (sort_insert cmp x l).
Proof.
  induction 1 as [|y l Hs IH Hy]; simpl.
  - by repeat constructor.
  - destruct (Z.leb_spec (cmp x y) 0) as [Hle | Hgt].
    + constructor; [by constructor |].
      constructor; [done |].
      eapply Forall_impl; [exact Hy |]. intros z Hz. by eapply cmp_trans.
    + constructor; [done |].
      rewrite sort_insert_perm. constructor; [| done].
      rewrite (cmp_antisym x y). lia.
Qed.

Lemma Array_sort_sorted (l : list A) :
  StronglySorted (λ a b, (cmp a b ≤ 0)%Z) (Array_sort cmp l).
Proof.
  induction l as [|x l IH]; simpl; [constructor |].
  by apply sort_insert_sorted.
Qed.


End Sort.

Lemma StronglySorted_lookup {A} (R : A → A → Prop) (l : list A) (i j : nat)
    (a b : A) :
  StronglySorted R l → (i < j)%nat → l !! i = Some a → l !! j = Some b → R a b.
Proof.
  intros Hs. revert i j a b.
  induction Hs as [|x l Hs IH Hx]; intros i j a b Hij Hi Hj.
  - by rewrite lookup_nil in Hi.
  - destruct j as [|j]; [lia |]. destruct i as [|i]; simpl in *.
    + injection Hi as <-. rewrite Forall_forall in Hx. apply Hx.
      by eapply list_elem_of_lookup_2.
    + apply (IH i j); [lia | done | done].
Qed.

Lemma sorted_appears_before (l : list Appointment) (i j : nat)
    (a b : Appointment) :
  StronglySorted (λ a b, (compareAppointments a b ≤ 0)%Z) l →
  l !! i = Some a → l !! j = Some b → collates_before a b → (i < j)%nat.
Proof.
  intros Hs Hi Hj Hab.
  destruct (decide (i < j)%nat) as [| Hge]; [done | exfalso].
  apply compareAppointments_neg in Hab.
  destruct (decide (i = j)) as [-> | Hne].
  - rewrite Hi in Hj. injection Hj as <-.
    pose proof (compareAppointments_antisym a a). lia.
  - assert (Hba : (compareAppointments b a ≤ 0)%Z).
    { apply (StronglySorted_lookup
               (λ a b, (compareAppointments a b ≤ 0)%Z) l j i b a Hs);
        [lia | done | done]. }
    rewrite (compareAppointments_antisym a b) in Hba. lia.
Qed.



(** What the callback receives for the three zero-padded appointments: the
    earlier time first, the two of ten o'clock in the store's order. *)
Lemma subscribeToAppointments_padded :
  StorageService.subscribeToAppointments (λ l, id <$> l) UnpaddedTimes.padded
  = [js "a"; js "b"; js "c"].
Proof. reflexivity. Qed.


(** ** Cancelling and resuming from the patient view *)

Ltac run_handler :=
  unfold PatientView.handleCancel, PatientView.handleResume,
    PatientView.handleSendMessage, AdminDashboard.handleSubmit,
    AdminDashboard.handleDelete, AdminDashboard.handleSendChat,
    AdminDashboard.chatForm_onSubmit in *;
  run_service.

Lemma merge_cancel (d : DocData) (reason : jsstring) :
  merge_fields [set_status (Some CANCELLED);
                set_cancellationReason (Some reason)] d
  = {| patientName := patientName d; patientEmail := patientEmail d;
       patientPhone := patientPhone d; date := date d; time := time d;
       treatmentType := treatmentType d; status := CANCELLED;
       doctorNotes := doctorNotes d; patientComments := patientComments d;
       cancellationReason := Some reason; messages := messages d;
       createdAt := createdAt d |}.
Proof. reflexivity. Qed.

(** C4. A cancellation whose reason is empty or consists of white space only
    is refused in the view: [handleCancel] makes no store call and changes
    neither the world nor the component state, and the "Confirmar" button is
    disabled.  With any other reason, for a loaded appointment whose document
    exists and whose update the store accepts, [handleCancel] makes one update
    that sets [status] to CANCELLED and [cancellationReason] to the reason as
    entered, leaving the other fields as they were. *)
Theorem handleCancel_reason
    (st : PatientView.State) (w : World) :
  (Forall (λ c, is_white_space c = true) (PatientView.cancelReason st) →
   (∀ reply, PatientView.handleCancel st reply w = (w, Returned st)) ∧
   (∀ v, PatientView.render st = Some v →
         PatientView.confirm_disabled v = true)) ∧
  (∀ a d,
     Exists (λ c, is_white_space c = false) (PatientView.cancelReason st) →
     PatientView.appointment st = Some a →
     docs w !! id a = Some d →
     let w' := world_after (PatientView.handleCancel st Accept w) in
     calls w' =
       calls w ++ [CallUpdateDoc (id a)
                     [set_status (Some CANCELLED);
                      set_cancellationReason
                        (Some (PatientView.cancelReason st))]] ∧
     docs w' =
       <[id a :=
           {| patientName := patientName d; patientEmail := patientEmail d;
              patientPhone := patientPhone d; date := date d; time := time d;
              treatmentType := treatmentType d; status := CANCELLED;
              doctorNotes := doctorNotes d;
              patientComments := patientComments d;
              cancellationReason := Some (PatientView.cancelReason st);
              messages := messages d; createdAt := createdAt d |}]> (docs w)).
Proof.
  split.
  - intros Hblank. apply truthy_trim_false in Hblank. split.
    + intros reply. unfold PatientView.handleCancel. rewrite Hblank.
      by destruct (PatientView.appointment st).
    + intros v. unfold PatientView.render.
      destruct (PatientView.loading st); [done |].
      destruct (PatientView.appointment st); [| done].
      intros [= <-]. simpl. by rewrite Hblank.
  - intros a d Hreason Ha Hd. apply truthy_trim_true in Hreason.
    cbn zeta. unfold PatientView.handleCancel. rewrite Ha, Hreason.
    run_service. rewrite Hd. cbn. done.
Qed.

Lemma handleCancel_reason_witness :
  PatientView.handleCancel
    (PatientView.setCancelReason (js "  ") LateChat.patient1)
    Accept LateChat.world0
  = (LateChat.world0,
     Returned (PatientView.setCancelReason (js "  ") LateChat.patient1)) ∧
  calls (world_after
           (PatientView.handleCancel LateChat.patient1 Accept LateChat.world0))
  = [CallUpdateDoc LateChat.apptId
       [set_status (Some CANCELLED);
        set_cancellationReason (Some (js "Me enfermo"))]].
Proof.
  split.
  - apply (proj1 (handleCancel_reason
                    (PatientView.setCancelReason (js "  ") LateChat.patient1)
                    LateChat.world0)).
    repeat constructor.
  - apply (proj2 (handleCancel_reason LateChat.patient1 LateChat.world0)
             {| id := LateChat.apptId; data := LateChat.appt |} LateChat.appt).
    + apply Exists_cons_hd. reflexivity.
    + reflexivity.
    + reflexivity.
Defined.

(** Whatever the setting of [ignoreUndefinedProperties], the update that
    [handleResume] sends cannot clear the cancellation reason: the property
    whose value is [undefined] is refused or left out. *)
Lemma updateDoc_undefined_reason
    (settings : FirestoreSettings) (docId : jsstring) (reply : ServerReply)
    (w : World) (d d' : DocData) :
  docs w !! docId = Some d →
  docs (updateDoc settings docId
          [set_status (Some SCHEDULED); set_cancellationReason None]
          reply w).1 !! docId = Some d' →
  cancellationReason d' = cancellationReason d.
Proof.
  intros Hd. run_service.
  destruct (ignoreUndefinedProperties settings); cbn.
  - destruct reply; cbn; [| congruence]. rewrite Hd; cbn.
    rewrite lookup_insert_eq. by intros [= <-].
  - congruence.
Qed.

(** C5 (what the code does instead).  When the patient confirms "Reanudar
    Cita" on a loaded appointment, [handleResume] calls [updateDoc] with
    [cancellationReason: undefined].  With the settings of [firebase.ts] the
    SDK refuses that object, [updateAppointment] logs the error and returns
    normally, and the collection is left exactly as it was: the status is not
    set to SCHEDULED and the cancellation reason is not cleared, whatever the
    store would have answered. *)
Theorem handleResume_update_refused
    (st : PatientView.State) (a : Appointment) (reply : ServerReply) (w : World)
    (Hloaded : PatientView.appointment st = Some a) :
  let r := PatientView.handleResume st true reply w in
  returned r = Some st ∧
  docs (world_after r) = docs w ∧
  calls (world_after r)
    = calls w ++ [CallUpdateDoc (id a)
                    [set_status (Some SCHEDULED); set_cancellationReason None]] ∧
  console (world_after r)
    = console w ++ [(js "Error updating appointment:", invalid_argument)].
Proof.
  cbn zeta. unfold PatientView.handleResume. rewrite Hloaded.
  run_service. done.
Qed.

Lemma handleResume_update_refused_witness :
  let cancelled :=
    world_after
      (PatientView.handleCancel LateChat.patient1 Accept LateChat.world0) in
  let view :=
    PatientView.onSnapshot_next LateChat.apptId
      (docs cancelled !! LateChat.apptId) LateChat.patient1 in
  (status <$> docs cancelled !! LateChat.apptId) = Some CANCELLED ∧
  docs (world_after (PatientView.handleResume view true Accept cancelled))
  = docs cancelled.
Proof.
  split; [reflexivity |].
  apply (handleResume_update_refused
           (PatientView.onSnapshot_next LateChat.apptId
              (docs (world_after
                       (PatientView.handleCancel LateChat.patient1 Accept
                          LateChat.world0)) !! LateChat.apptId)
              LateChat.patient1)
           {| id := LateChat.apptId;
              data := merge_fields
                        [set_status (Some CANCELLED);
                         set_cancellationReason (Some (js "Me enfermo"))]
                        LateChat.appt |}
           Accept).
  reflexivity.
Defined.

(** ** The status is never COMPLETED *)

Lemma preserves_ret {A} (a : A) : preserves (ret a).
Proof. by intros w Hw. Qed.

Lemma preserves_throw {A} (e : FirestoreError) : preserves (@throw A e).
Proof. by intros w Hw. Qed.

Lemma preserves_bind {A B} (m : M A) (k : A → M B) :
  preserves m → (∀ a, preserves (k a)) → preserves (bind m k).
Proof.
  intros Hm Hk w Hw. unfold bind. specialize (Hm w Hw).
  destruct (m w) as [w' [a | e]]; simpl in *; [by apply Hk | done].
Qed.

Lemma preserves_try_catch {A} (m : M A) (h : FirestoreError → M A) :
  preserves m → (∀ e, preserves (h e)) → preserves (try_catch m h).
Proof.
  intros Hm Hh w Hw. unfold try_catch. specialize (Hm w Hw).
  destruct (m w) as [w' [a | e]]; simpl in *; [done | by apply Hh].
Qed.

Lemma preserves_console_error (msg : jsstring) (e : FirestoreError) :
  preserves (console_error msg e).
Proof. by intros w Hw. Qed.

Lemma preserves_alert (msg : jsstring) : preserves (alert msg).
Proof. by intros w Hw. Qed.

Lemma preserves_Date_now (elapsed : N) : preserves (Date_now elapsed).
Proof. by intros w Hw. Qed.

Lemma preserves_record_call (c : StoreCall) :
  (∀ v, v ∈ status_writes c → v = Some SCHEDULED ∨ v = Some CANCELLED) →
  preserves (record_call c).
Proof.
  intros Hc w [Hdocs Hcalls]. split; [done |].
  intros c' v Hin Hv. cbn in Hin. apply elem_of_app in Hin as [Hin | Hin].
  - by apply (Hcalls c').
  - apply list_elem_of_singleton in Hin as ->. by apply Hc.
Qed.

Lemma good_update_status (u : FieldUpdate) (d : DocData) :
  good_update u → status d ≠ COMPLETED → status (write_field u d) ≠ COMPLETED.
Proof.
  destruct u as [[?|]|[?|]|[?|]|[?|]|[?|]|[?|]|[?|]|[?|]|[?|]|[?|]|[?|]|[?|]];
    simpl; try done.
  intros [[= ->] | [= ->]]; done.
Qed.

Lemma good_updates_status (updates : list FieldUpdate) (d : DocData) :
  Forall good_update updates → status d ≠ COMPLETED →
  status (merge_fields updates d) ≠ COMPLETED.
Proof.
  unfold merge_fields. intros Hus. revert d.
  induction Hus as [|u us Hu Hus IH]; intros d Hd; simpl; [done |].
  apply IH. by apply good_update_status.
Qed.

Lemma good_updates_writes (docId : jsstring) (updates : list FieldUpdate) v :
  Forall good_update updates →
  v ∈ status_writes (CallUpdateDoc docId updates) →
  v = Some SCHEDULED ∨ v = Some CANCELLED.
Proof.
  simpl. intros Hus Hv. apply list_elem_of_omap in Hv as (u & Hu & Hv).
  rewrite Forall_forall in Hus. specialize (Hus u Hu).
  by destruct u; simplify_eq.
Qed.

Lemma preserves_updateDoc (settings : FirestoreSettings) (docId : jsstring)
    (updates : list FieldUpdate) (reply : ServerReply) :
  Forall good_update updates →
  preserves (updateDoc settings docId updates reply).
Proof.
  intros Hus. unfold updateDoc. apply preserves_bind.
  - apply preserves_record_call. intros v. by apply good_updates_writes.
  - intros _.
    destruct (negb (ignoreUndefinedProperties settings)
              && existsb is_undefined updates); [apply preserves_throw |].
    destruct reply; [| apply preserves_throw].
    intros w [Hdocs Hcalls]. destruct (docs w !! docId) as [d|] eqn:Hd; [| done].
    split; [| done]. intros i d'. cbn. rewrite lookup_insert.
    case_decide as Hi.
    + intros [= <-]. apply good_updates_status; [done |]. by apply (Hdocs docId).
    + apply Hdocs.
Qed.

Lemma preserves_addDoc (autoId : jsstring) (d : DocData) (reply : ServerReply) :
  status d = SCHEDULED → preserves (addDoc autoId d reply).
Proof.
  intros Hst. unfold addDoc. apply preserves_bind.
  - apply preserves_record_call. simpl. intros v Hv.
    apply list_elem_of_singleton in Hv as ->. left. by rewrite Hst.
  - intros _. destruct reply; [| apply preserves_throw].
    intros w [Hdocs Hcalls]. split; [| done]. intros i d'. cbn.
    rewrite lookup_insert. case_decide as Hi.
    + intros [= <-]. by rewrite Hst.
    + apply Hdocs.
Qed.

Lemma preserves_deleteDoc (docId : jsstring) (reply : ServerReply) :
  preserves (deleteDoc docId reply).
Proof.
  unfold deleteDoc. apply preserves_bind.
  - apply preserves_record_call. simpl. intros v Hv. by apply elem_of_nil in Hv.
  - intros _. destruct reply; [| apply preserves_throw].
    intros w [Hdocs Hcalls]. split; [| done]. intros i d'. cbn.
    intros Hi. apply lookup_delete_Some in Hi as [_ Hi]. by apply (Hdocs i).
Qed.

Lemma preserves_updateAppointment (docId : jsstring)
    (updates : list FieldUpdate) (reply : ServerReply) :
  Forall good_update updates →
  preserves (StorageService.updateAppointment docId updates reply).
Proof.
  intros Hus. apply preserves_try_catch.
  - by apply preserves_updateDoc.
  - intros e. apply preserves_console_error.
Qed.

Lemma preserves_createAppointment (dto : NewAppointmentDTO) (elapsed : N)
    (autoId : jsstring) (reply : ServerReply) :
  preserves (StorageService.createAppointment dto elapsed autoId reply).
Proof.
  apply preserves_try_catch.
  - apply preserves_bind; [apply preserves_Date_now |]. intros now.
    apply preserves_bind; [by apply preserves_addDoc |]. intros _.
    apply preserves_ret.
  - intros e. apply preserves_bind; [apply preserves_console_error |].
    intros _. apply preserves_bind; [| intros _; apply preserves_throw].
    destruct (decide _); [apply preserves_alert | apply preserves_ret].
Qed.

Lemma preserves_addMessage (docId : jsstring) (message : MessageDraft)
    (elapsed : N) (reply : ServerReply) :
  preserves (StorageService.addMessage docId message elapsed reply).
Proof.
  apply preserves_try_catch.
  - apply preserves_bind; [apply preserves_Date_now |]. intros now.
    apply preserves_updateDoc.
    repeat (constructor; [simpl; auto |]). constructor.
  - intros e. apply preserves_console_error.
Qed.

Lemma preserves_deleteAppointment (docId : jsstring) (reply : ServerReply) :
  preserves (StorageService.deleteAppointment docId reply).
Proof.
  apply preserves_try_catch; [apply preserves_deleteDoc |].
  intros e. apply preserves_console_error.
Qed.

Lemma perform_lifecycle_ok (a : Action) (w : World) :
  lifecycle_ok w → lifecycle_ok (perform a w).
Proof.
  destruct a as [st elapsed autoId reply | docId confirmed reply
                | st e1 e2 reply | st e1 e2 reply | st reply
                | st confirmed reply]; simpl; revert w.
  - change (preserves (AdminDashboard.handleSubmit st elapsed autoId reply)).
    apply preserves_try_catch.
    + cbn zeta. destruct (negb _).
      * apply preserves_bind; [apply preserves_alert |].
        intros _. apply preserves_ret.
      * apply preserves_bind; [| intros _; apply preserves_ret].
        destruct (truthy_opt _).
        -- apply preserves_updateAppointment.
           repeat (constructor; [simpl; auto |]). constructor.
        -- apply preserves_createAppointment.
    + intros e. apply preserves_bind; [apply preserves_alert |].
      intros _. apply preserves_ret.
  - change (preserves (AdminDashboard.handleDelete docId confirmed reply)).
    unfold AdminDashboard.handleDelete. destruct confirmed.
    + apply preserves_deleteAppointment.
    + apply preserves_ret.
  - change (preserves (AdminDashboard.chatForm_onSubmit st e1 e2 reply)).
    unfold AdminDashboard.chatForm_onSubmit, AdminDashboard.handleSendChat.
    destruct (truthy_opt _); [| apply preserves_ret].
    destruct (negb _); [apply preserves_ret |].
    apply preserves_bind; [apply preserves_Date_now |]. intros now.
    apply preserves_bind; [apply preserves_addMessage |]. intros _.
    apply preserves_ret.
  - change (preserves (PatientView.handleSendMessage st e1 e2 reply)).
    unfold PatientView.handleSendMessage.
    destruct (PatientView.appointment st); [| apply preserves_ret].
    destruct (truthy _); [| apply preserves_ret].
    apply preserves_bind; [apply preserves_Date_now |]. intros now.
    apply preserves_bind; [apply preserves_addMessage |]. intros _.
    apply preserves_ret.
  - change (preserves (PatientView.handleCancel st reply)).
    unfold PatientView.handleCancel.
    destruct (PatientView.appointment st); [| apply preserves_ret].
    destruct (truthy _); [| apply preserves_ret].
    apply preserves_bind; [| intros _; apply preserves_ret].
    apply preserves_updateAppointment.
    repeat (constructor; [simpl; auto |]). constructor.
  - change (preserves (PatientView.handleResume st confirmed reply)).
    unfold PatientView.handleResume.
    destruct (PatientView.appointment st); [| apply preserves_ret].
    destruct confirmed; [| apply preserves_ret].
    apply preserves_bind; [| intros _; apply preserves_ret].
    apply preserves_updateAppointment.
    repeat (constructor; [simpl; auto |]). constructor.
Qed.

Lemma run_lifecycle_ok (actions : list Action) (w : World) :
  lifecycle_ok w → lifecycle_ok (run actions w).
Proof.
  unfold run. revert w. induction actions as [|a l IH]; intros w Hw; simpl.
  - done.
  - apply IH. by apply perform_lifecycle_ok.
Qed.

(** C8. Starting from an empty collection, after any sequence of actions of
    the dashboard and of the patient view (submitting the form, deleting,
    sending chat messages, cancelling, resuming), no stored appointment has
    the status COMPLETED, and every call made to the store wrote only
    SCHEDULED or CANCELLED to the field [status]: [addDoc] with SCHEDULED,
    the cancel update with CANCELLED, the resume update with SCHEDULED, and
    no other call names the field. *)
Theorem status_never_completed (actions : list Action) (t0 : N) :
  let w := run actions (empty_world t0) in
  (∀ docId d, docs w !! docId = Some d → status d ≠ COMPLETED) ∧
  (∀ c v, c ∈ calls w → v ∈ status_writes c →
          v = Some SCHEDULED ∨ v = Some CANCELLED) ∧
  (∀ dto now, status (StorageService.newAppointment dto now) = SCHEDULED) ∧
  (∀ st reply w0,
     Forall (λ c, Forall (λ v, v = Some CANCELLED) (status_writes c))
       (drop (length (calls w0))
          (calls (world_after (PatientView.handleCancel st reply w0))))) ∧
  (∀ st confirmed reply w0,
     Forall (λ c, Forall (λ v, v = Some SCHEDULED) (status_writes c))
       (drop (length (calls w0))
          (calls (world_after
                    (PatientView.handleResume st confirmed reply w0))))).
Proof.
  cbn zeta.
  assert (Hok : lifecycle_ok (run actions (empty_world t0))).
  { apply run_lifecycle_ok. split.
    - intros i d Hd. cbn in Hd. by rewrite lookup_empty in Hd.
    - intros c v Hc. cbn in Hc. by apply elem_of_nil in Hc. }
  destruct Hok as [Hdocs Hcalls]. split_and!; [done | done | done | |].
  - intros st reply w0. unfold PatientView.handleCancel.
    destruct (PatientView.appointment st) as [a|];
      [destruct (truthy _) |]; run_service;
      rewrite ?drop_all; try by constructor.
    destruct reply; cbn;
      [destruct (docs w0 !! id a); cbn |];
      rewrite drop_app_length; by repeat constructor.
  - intros st confirmed reply w0. unfold PatientView.handleResume.
    destruct (PatientView.appointment st) as [a|];
      [destruct confirmed |]; run_service;
      rewrite ?drop_all; try by constructor.
    rewrite drop_app_length; by repeat constructor.
Qed.

Lemma status_never_completed_witness :
  status <$> docs (run [PatientCancel LateChat.patient1 Accept;
                        PatientResume LateChat.patient1 true Accept;
                        AdminSubmit AdminDashboard.initial 3 (js "n1") Accept]
                     (empty_world 0)) !! js "n1"
  ≠ Some COMPLETED.
Proof.
  destruct (docs (run [PatientCancel LateChat.patient1 Accept;
                       PatientResume LateChat.patient1 true Accept;
                       AdminSubmit AdminDashboard.initial 3 (js "n1") Accept]
                    (empty_world 0)) !! js "n1") as [d|] eqn:Hd; [| done].
  intros [= Hst].
  exact (proj1 (status_never_completed
                  [PatientCancel LateChat.patient1 Accept;
                   PatientResume LateChat.patient1 true Accept;
                   AdminSubmit AdminDashboard.initial 3 (js "n1") Accept] 0)
           (js "n1") d Hd Hst).
Defined.

(** ** Chat appends *)

Lemma array_union_singleton (m : ChatMessage) (l : list ChatMessage) :
  array_union [m] l = if decide (m ∈ l) then l else l ++ [m].
Proof. reflexivity. Qed.

Lemma message_list_server_append (d : DocData) (m : ChatMessage) :
  message_list (server_append d m)
  = if decide (m ∈ message_list d) then message_list d
    else message_list d ++ [m].
Proof. reflexivity. Qed.

Lemma server_append_present (d : DocData) (m : ChatMessage) :
  m ∈ message_list d → server_append d m = d.
Proof.
  intros Hm. destruct d as [? ? ? ? ? ? ? ? ? ? [l|] ?]; cbn in Hm.
  - unfold server_append, merge_fields; cbn -[array_union].
    rewrite array_union_singleton, decide_True by done. done.
  - by apply elem_of_nil in Hm.
Qed.


Lemma addMessage_accepted (docId : jsstring) (message : MessageDraft)
    (elapsed : N) (w : World) (d : DocData) :
  docs w !! docId = Some d →
  StorageService.addMessage docId message elapsed Accept w
  = ({| docs := <[docId := server_append d
                    (StorageService.newMessage message (clock w + elapsed))]>
                  (docs w);
        clock := clock w + elapsed;
        calls := calls w ++
          [CallUpdateDoc docId
             [set_messages
                (Some (arrayUnion
                         [StorageService.newMessage message
                            (clock w + elapsed)]))]];
        console := console w; alerts := alerts w |},
     Returned tt).
Proof. intros Hd. run_service. by rewrite Hd. Qed.

(** C9. When the message that [addMessage] builds (the draft with
    [id = Date.now().toString()]) is already in the document's list, the
    accepted append leaves the collection as it was and logs nothing; so of
    two sends of the same draft within the same millisecond, the second is
    dropped without a trace: the list after both is the list after the first,
    and it holds the message once if it held no duplicate before. *)
Theorem addMessage_identical_payload
    (docId : jsstring) (message : MessageDraft) (elapsed : N)
    (w : World) (d : DocData) (Hdoc : docs w !! docId = Some d) :
  let m := StorageService.newMessage message (clock w + elapsed) in
  (m ∈ message_list d →
   StorageService.addMessage docId message elapsed Accept w
   = ({| docs := docs w; clock := clock w + elapsed;
         calls := calls w ++
           [CallUpdateDoc docId [set_messages (Some (arrayUnion [m]))]];
         console := console w; alerts := alerts w |},
      Returned tt)) ∧
  let first := StorageService.addMessage docId message elapsed Accept w in
  let second :=
    StorageService.addMessage docId message 0 Accept (world_after first) in
  returned second = Some tt ∧
  docs (world_after second) = docs (world_after first) ∧
  console (world_after second) = console w ∧
  (NoDup (message_list d) →
   ∃ d', docs (world_after second) !! docId = Some d' ∧
         m ∈ message_list d' ∧ NoDup (message_list d')).
Proof.
  cbn zeta. split.
  - intros Hm. rewrite (addMessage_accepted _ _ _ _ _ Hdoc).
    rewrite server_append_present by done. by rewrite insert_id.
  - rewrite (addMessage_accepted _ _ _ _ _ Hdoc). unfold world_after; cbn [fst].
    set (m := StorageService.newMessage message (clock w + elapsed)).
    set (d1 := server_append d m).
    assert (Hm1 : m ∈ message_list d1).
    { unfold d1. rewrite message_list_server_append.
      destruct (decide (m ∈ message_list d)); [done |].
      apply elem_of_app. right. by apply list_elem_of_singleton. }
    assert (Hd1 : <[docId := d1]> (docs w) !! docId = Some d1)
      by apply lookup_insert_eq.
    rewrite (addMessage_accepted docId message 0 _ d1) by exact Hd1.
    cbn [docs clock calls console alerts fst snd returned].
    rewrite N.add_0_r. fold m.
    rewrite server_append_present by done.
    split_and!; [done | by rewrite insert_insert_eq | done |].
    intros Hnd. exists d1. rewrite insert_insert_eq.
    split_and!; [done | done |].
    unfold d1. rewrite message_list_server_append.
    destruct (decide (m ∈ message_list d)); [done |].
    apply NoDup_app. split_and!; [done | | apply NoDup_singleton].
    intros x Hx Hx'. apply list_elem_of_singleton in Hx' as ->. done.
Qed.

Lemma addMessage_identical_payload_witness :
  let draft := {| draft_sender := patient; draft_text := js "Llego tarde";
                  draft_timestamp := 1000 |} in
  let first :=
    StorageService.addMessage LateChat.apptId draft 0 Accept LateChat.world0 in
  docs (world_after
          (StorageService.addMessage LateChat.apptId draft 0 Accept
             (world_after first)))
  = docs (world_after first).
Proof.
  apply (addMessage_identical_payload LateChat.apptId
           {| draft_sender := patient; draft_text := js "Llego tarde";
              draft_timestamp := 1000 |} 0 LateChat.world0 LateChat.appt).
  reflexivity.
Defined.

(** ** Chat and cancelled appointments *)

(** In the patient view a cancelled appointment has its chat input and its
    send button disabled. *)
Lemma PatientView_cancelled_disabled (st : PatientView.State) (a : Appointment)
    (v : PatientView.View) :
  PatientView.appointment st = Some a → status (data a) = CANCELLED →
  PatientView.render st = Some v →
  PatientView.input_disabled v = true ∧ PatientView.send_disabled v = true.
Proof.
  intros Ha Hst. unfold PatientView.render. rewrite Ha.
  destruct (PatientView.loading st); [done |]. intros [= <-]. simpl.
  rewrite bool_decide_eq_true_2 by done. split; [done |].
  apply orb_true_r.
Qed.

(** So a message submitted from the patient view goes to an appointment that
    the view last saw with a status other than CANCELLED. *)
Lemma PatientView_submit_not_cancelled (st : PatientView.State) :
  PatientView.can_submit_message st = true →
  ∃ a, PatientView.appointment st = Some a ∧ status (data a) ≠ CANCELLED ∧
       ∀ e1 e2 reply w,
         calls (world_after (PatientView.handleSendMessage st e1 e2 reply w))
         = calls w ++
           [CallUpdateDoc (id a)
              [set_messages
                 (Some (arrayUnion
                          [{| msg_id := toString (clock w + e1 + e2);
                              sender := patient;
                              text := PatientView.messageText st;
                              timestamp := clock w + e1 |}]))]].
Proof.
  unfold PatientView.can_submit_message, PatientView.render.
  destruct (PatientView.loading st); [done |].
  destruct (PatientView.appointment st) as [a|] eqn:Ha; [| done]. simpl.
  intros H. apply negb_true_iff, orb_false_iff in H as [Htxt Hst].
  apply negb_false_iff in Htxt. apply bool_decide_eq_false in Hst.
  exists a. split_and!; [done | done |].
  intros e1 e2 reply w. unfold PatientView.handleSendMessage.
  rewrite Ha, Htxt. run_service.
  destruct reply; cbn -[N.add]; [| done]. by destruct (docs w !! id a).
Qed.

(** On the dashboard the "Chat" button is shown only on the cards of
    appointments that are not cancelled. *)
Lemma chat_buttons_not_cancelled (st : AdminDashboard.State) (a : Appointment) :
  a ∈ AdminDashboard.chat_buttons st → status (data a) ≠ CANCELLED.
Proof.
  unfold AdminDashboard.chat_buttons.
  destruct (truthy_opt _); [by intros ?%elem_of_nil |].
  destruct (AdminDashboard.currentView st), (AdminDashboard.loading st);
    try (by intros ?%elem_of_nil);
    intros Hin; apply list_elem_of_In, filter_In in Hin as [_ Hin];
    by apply negb_true_iff, bool_decide_eq_false in Hin.
Qed.

(** C10 (a path on which the code departs from the claim).  The doctor opens
    the chat of a scheduled appointment from its "Chat" button and types a
    message; the patient cancels; the dashboard receives the cancelled
    appointment, shows no "Chat" button for it any more, but keeps the chat
    modal open with its send button enabled.  Submitting then appends the
    doctor's message to the appointment that the dashboard last saw, and the
    store holds, as CANCELLED. *)
Theorem chat_sent_to_cancelled_appointment :
  {| id := LateChat.apptId; data := LateChat.appt |}
    ∈ AdminDashboard.chat_buttons LateChat.admin0 ∧
  AdminDashboard.chat_buttons LateChat.admin2 = [] ∧
  (status ∘ data <$> AdminDashboard.chat_appointment LateChat.admin2)
    = Some CANCELLED ∧
  AdminDashboard.can_submit_chat LateChat.admin2 = true ∧
  calls LateChat.world2
    = calls LateChat.world1 ++
      [CallUpdateDoc LateChat.apptId
         [set_messages
            (Some (arrayUnion
                     [{| msg_id := js "1005"; sender := doctor;
                         text := js "Hola"; timestamp := 1005 |}]))]] ∧
  (status <$> docs LateChat.world2 !! LateChat.apptId) = Some CANCELLED ∧
  (message_list <$> docs LateChat.world2 !! LateChat.apptId)
    = Some [{| msg_id := js "1005"; sender := doctor;
               text := js "Hola"; timestamp := 1005 |}].
Proof.
  split_and!; try (vm_compute; reflexivity).
  apply list_elem_of_In. vm_compute. by left.
Qed.

(** * Further properties of the code *)

(** ** Routing, authorization and theme ([App.tsx]) *)

Lemma starts_with_app (p s : jsstring) : starts_with (p ++ s) p = true.
Proof.
  induction p as [|c p IH]; simpl; [by destruct s |].
  by rewrite N.eqb_refl.
Qed.

Lemma replace_first_prefix (p s r : jsstring) :
  replace_first (p ++ s) p r = r ++ s.
Proof.
  assert (Hunfold : ∀ x, replace_first x p r
                         = if starts_with x p then r ++ drop (length p) x
                           else match x with
                                | [] => []
                                | c :: x' => c :: replace_first x' p r
                                end) by (by intros [|c x]).
  by rewrite Hunfold, starts_with_app, drop_app_length.
Qed.

Lemma location_hash_before_hash (href rest : jsstring) :
  location_hash (AdminDashboard.before_hash href ++ 35 :: rest)
  = if forallb fragment_safe rest
    then Some (if truthy rest then 35 :: rest else [])
    else None.
Proof.
  induction href as [|c href IH]; simpl; [done |].
  destruct (N.eqb_spec c 35) as [-> | Hc]; simpl; [done |].
  by rewrite (proj2 (N.eqb_neq c 35) Hc).
Qed.

Lemma forallb_fragment_safe (s : jsstring) :
  Forall (λ c, fragment_safe c = true) s → forallb fragment_safe s = true.
Proof.
  induction 1 as [|c s Hc Hs IH]; simpl; [done |]. by rewrite Hc, IH.
Qed.

(** X1. For an id made of characters that a URL fragment keeps as they are
    (as the ids the store assigns are), the link that the dashboard puts in
    the QR code and in the share messages leads, whatever page address it was
    built from and whoever is or is not signed in, to the patient view of
    exactly that appointment. *)
Theorem share_link_opens_patient_view
    (href docId : jsstring) (st : App.State) (b : App.Browser)
    (Hauth : App.loadingAuth st = false)
    (Hsafe : Forall (λ c, fragment_safe c = true) docId) :
  let link := AdminDashboard.share_link href docId in
  location_hash link = Some (js "#appt-" ++ docId) ∧
  ∀ h, location_hash link = Some h →
       App.render (App.handleHashChange st (App.with_hash h b))
       = App.PatientScreen docId.
Proof.
  cbn zeta. unfold AdminDashboard.share_link.
  change (js "#appt-" ++ docId) with (35 :: js "appt-" ++ docId).
  rewrite location_hash_before_hash.
  assert (Hall : forallb fragment_safe (js "appt-" ++ docId) = true).
  { apply forallb_fragment_safe, Forall_app. split; [| done].
    repeat constructor. }
  rewrite Hall. change (truthy (js "appt-" ++ docId)) with true. cbv iota.
  split; [done |]. intros h Hh. apply (inj Some) in Hh. subst h.
  unfold App.render, App.handleHashChange, App.isPatientView, App.appointmentId,
    App.isPatientView; cbn [App.loadingAuth App.currentHash App.hash App.with_hash].
  rewrite Hauth.
  change (35 :: js "appt-" ++ docId) with (js "#appt-" ++ docId).
  by rewrite starts_with_app, replace_first_prefix.
Qed.

Lemma share_link_opens_patient_view_witness :
  location_hash (AdminDashboard.share_link (js "https://clinic.example/#x")
                   (js "a1"))
  = Some (js "#appt-a1") ∧
  App.render
    (App.handleHashChange
       (App.onAuthStateChanged None
          (App.mount {| App.hash := []; App.theme_item := None;
                        App.dark_class := false; App.prefers_dark := false |}).1)
       (App.with_hash (js "#appt-a1")
          {| App.hash := []; App.theme_item := None;
             App.dark_class := false; App.prefers_dark := false |}))
  = App.PatientScreen (js "a1").
Proof.
  assert (Hsafe : Forall (λ c, fragment_safe c = true) (js "a1"))
    by (repeat constructor).
  destruct (share_link_opens_patient_view (js "https://clinic.example/#x")
              (js "a1")
              (App.onAuthStateChanged None
                 (App.mount {| App.hash := []; App.theme_item := None;
                               App.dark_class := false;
                               App.prefers_dark := false |}).1)
              {| App.hash := []; App.theme_item := None;
                 App.dark_class := false; App.prefers_dark := false |}
              eq_refl Hsafe) as [Hhash Hrender].
  split; [exact Hhash | exact (Hrender _ Hhash)].
Defined.

Lemma App_run_isAuthorized (events : list App.Event) (b0 : App.Browser) :
  App.isAuthorized (App.run events b0).1
  = match App.user (App.run events b0).1 with
    | Some u => bool_decide (App.email u = Some App.ADMIN_EMAIL)
    | None => false
    end.
Proof.
  unfold App.run. induction events as [|ev events IH] using rev_ind.
  - simpl. unfold App.mount. by destruct (_ || _).
  - rewrite foldl_app. simpl.
    destruct (foldl App.step (App.mount b0) events) as [st b]. simpl in IH.
    by destruct ev as [h | | [v|] |].
Qed.

Lemma App_run_loadingAuth (events : list App.Event) (b0 : App.Browser) :
  (∀ ev, ev ∈ events → ∀ u, ev ≠ App.AuthStateChanged u) →
  App.loadingAuth (App.run events b0).1 = true.
Proof.
  unfold App.run. induction events as [|ev events IH] using rev_ind; intros Hno.
  - simpl. unfold App.mount. by destruct (_ || _).
  - rewrite foldl_app. simpl.
    assert (IH' : App.loadingAuth (foldl App.step (App.mount b0) events).1
                  = true).
    { apply IH. intros ev' Hin. apply Hno, elem_of_app. by left. }
    destruct (foldl App.step (App.mount b0) events) as [st b].
    destruct ev as [h | | v |]; simpl in *; try done.
    exfalso. apply (Hno (App.AuthStateChanged v)) with v; [| done].
    apply elem_of_app. right. by apply list_elem_of_singleton.
Qed.

(** X2. However the fragment, the session and the theme change after the
    component is mounted, the dashboard is on screen only while the signed-in
    user's email is exactly the configured address and the fragment is not a
    patient link; the access-denied screen is shown only to a signed-in user
    with another email; and until the first session notification only the
    spinner is shown. *)
Theorem admin_screen_only_for_admin
    (events : list App.Event) (b0 : App.Browser) :
  let st := (App.run events b0).1 in
  (App.render st = App.AdminScreen →
   (∃ u, App.user st = Some u ∧ App.email u = Some App.ADMIN_EMAIL)
   ∧ App.isPatientView st = false) ∧
  (∀ u, App.render st = App.AccessDenied u →
        App.user st = Some u ∧ App.email u ≠ Some App.ADMIN_EMAIL) ∧
  ((∀ ev, ev ∈ events → ∀ u, ev ≠ App.AuthStateChanged u) →
   App.render st = App.AuthSpinner).
Proof.
  cbn zeta. pose proof (App_run_isAuthorized events b0) as Hinv. split_and!.
  - intros Hr. unfold App.render in Hr.
    destruct (App.loadingAuth _); [done |].
    destruct (App.isPatientView _); [done |].
    destruct (App.user _) as [u|]; [| done].
    destruct (App.isAuthorized _); [| done]. split; [| done].
    symmetry in Hinv. apply bool_decide_eq_true in Hinv. by exists u.
  - intros u Hr. unfold App.render in Hr.
    destruct (App.loadingAuth _); [done |].
    destruct (App.isPatientView _); [done |].
    destruct (App.user _) as [v|]; [| done].
    destruct (App.isAuthorized _) eqn:Ha; [done |].
    injection Hr as ->. split; [done |].
    symmetry in Hinv. by apply bool_decide_eq_false in Hinv.
  - intros Hno. unfold App.render.
    by rewrite (App_run_loadingAuth events b0 Hno).
Qed.

Lemma App_run_theme (events : list App.Event) (b0 : App.Browser) :
  App.dark_class (App.run events b0).2 = App.darkMode (App.run events b0).1 ∧
  (App.ToggleDarkMode ∈ events →
   App.theme_item (App.run events b0).2
   = Some (if App.darkMode (App.run events b0).1
           then js "dark" else js "light")).
Proof.
  unfold App.run. induction events as [|ev events IH] using rev_ind.
  - simpl. unfold App.mount. split; [by destruct (_ || _) |].
    by intros ?%elem_of_nil.
  - rewrite foldl_app. simpl. destruct IH as [IHc IHt].
    destruct (foldl App.step (App.mount b0) events) as [st b].
    destruct ev as [h | | v |]; simpl in *.
    + split; [done |]. intros Hin. apply IHt.
      apply elem_of_app in Hin as [Hin | Hin]; [done |].
      by apply list_elem_of_singleton in Hin.
    + split; [done |]. intros Hin. apply IHt.
      apply elem_of_app in Hin as [Hin | Hin]; [done |].
      by apply list_elem_of_singleton in Hin.
    + split; [done |]. intros Hin. apply IHt.
      apply elem_of_app in Hin as [Hin | Hin]; [done |].
      by apply list_elem_of_singleton in Hin.
    + by destruct (App.darkMode st).
Qed.

(** X3. After any sequence of events the class on the page agrees with the
    component's dark-mode flag; and once the theme has been toggled, loading
    the application again restores the theme last chosen, whatever the
    system's colour-scheme preference is then. *)
Theorem theme_survives_reload
    (events : list App.Event) (b0 : App.Browser) (prefers : bool) :
  let st := (App.run events b0).1 in
  let b := (App.run events b0).2 in
  let reloaded :=
    App.mount {| App.hash := App.hash b; App.theme_item := App.theme_item b;
                 App.dark_class := false; App.prefers_dark := prefers |} in
  App.dark_class b = App.darkMode st ∧
  (App.ToggleDarkMode ∈ events →
   App.darkMode reloaded.1 = App.darkMode st ∧
   App.dark_class reloaded.2 = App.darkMode st).
Proof.
  cbn zeta. destruct (App_run_theme events b0) as [Hc Ht].
  split; [done |]. intros Hin. specialize (Ht Hin).
  unfold App.mount; cbn [App.theme_item App.prefers_dark]. rewrite Ht.
  by destruct (App.darkMode (App.run events b0).1), prefers.
Qed.

(** ** The lists and numbers of the dashboard ([AdminDashboard.tsx]) *)

Lemma filter_complement_perm {A} (f : A → bool) (l : list A) :
  List.filter f l ++ List.filter (λ a, negb (f a)) l ≡ₚ l.
Proof.
  induction l as [|x l IH]; simpl; [done |].
  destruct (f x); simpl.
  - by rewrite IH.
  - rewrite <- Permutation_middle. by rewrite IH.
Qed.

Lemma filter_sublist {A} (f : A → bool) (l : list A) :
  List.filter f l `sublist_of` l.
Proof.
  induction l as [|x l IH]; simpl; [done |].
  destruct (f x); [by apply sublist_skip | by apply sublist_cons].
Qed.

Lemma filter_ext_eq {A} (f g : A → bool) (l : list A) :
  (∀ a, f a = g a) → List.filter f l = List.filter g l.
Proof.
  intros H. induction l as [|x l IH]; simpl; [done |]. by rewrite H, IH.
Qed.

Lemma filter_twice {A} (f g : A → bool) (l : list A) :
  List.filter g (List.filter f l) = List.filter (λ a, f a && g a) l.
Proof.
  induction l as [|x l IH]; simpl; [done |].
  destruct (f x); simpl; [destruct (g x) |]; by rewrite IH.
Qed.

Lemma filter_none {A} (l : list A) : List.filter (λ _, false) l = [].
Proof. by induction l. Qed.

Lemma StronglySorted_filter {A} (R : A → A → Prop) (f : A → bool)
    (l : list A) :
  StronglySorted R l → StronglySorted R (List.filter f l).
Proof.
  induction 1 as [|x l Hs IH Hx]; simpl; [constructor |].
  destruct (f x); [| done]. constructor; [done |].
  rewrite Forall_forall in *. intros y Hy.
  apply Hx. apply list_elem_of_In. apply list_elem_of_In, filter_In in Hy.
  tauto.
Qed.

Lemma filterEffect_blank (toLowerCase : jsstring → jsstring)
    (today : jsstring) (st : AdminDashboard.State) :
  Forall (λ c, is_white_space c = true) (AdminDashboard.searchTerm st) →
  AdminDashboard.filteredAppointments
    (AdminDashboard.filterEffect toLowerCase today st)
  = match AdminDashboard.currentView st with
    | AdminDashboard.agenda =>
        List.filter
          (λ a, (0 <=? code_unit_compare (date (data a)) today)%Z
                && negb (AdminDashboard.is_status COMPLETED a)
                && negb (AdminDashboard.is_status CANCELLED a))
          (AdminDashboard.appointments st)
    | AdminDashboard.history =>
        List.filter
          (λ a, (code_unit_compare (date (data a)) today <? 0)%Z
                || AdminDashboard.is_status COMPLETED a
                || AdminDashboard.is_status CANCELLED a)
          (AdminDashboard.appointments st)
    | AdminDashboard.dashboard => []
    end.
Proof.
  intros Hblank. apply truthy_trim_false in Hblank.
  unfold AdminDashboard.filterEffect. by rewrite Hblank.
Qed.

(** X4. With no search term (empty or blank), the agenda and the history
    split the appointments the dashboard holds: every appointment is listed
    in exactly one of the two views; the agenda shows no cancelled and no
    completed appointment, and the list behind the statistics view is empty. *)
Theorem agenda_history_partition
    (toLowerCase : jsstring → jsstring) (today : jsstring)
    (st : AdminDashboard.State)
    (Hblank : Forall (λ c, is_white_space c = true)
                (AdminDashboard.searchTerm st)) :
  let shown v :=
    AdminDashboard.filteredAppointments
      (AdminDashboard.filterEffect toLowerCase today
         (AdminDashboard.setCurrentView v st)) in
  shown AdminDashboard.agenda ++ shown AdminDashboard.history
    ≡ₚ AdminDashboard.appointments st ∧
  (∀ a, a ∈ shown AdminDashboard.agenda →
        (a ∉ shown AdminDashboard.history) ∧ status (data a) = SCHEDULED) ∧
  shown AdminDashboard.dashboard = [].
Proof.
  cbn beta zeta. rewrite !filterEffect_blank by done. cbn.
  split_and!; [| | done].
  - rewrite <- (filter_complement_perm
                  (λ a, (0 <=? code_unit_compare (date (data a)) today)%Z
                        && negb (AdminDashboard.is_status COMPLETED a)
                        && negb (AdminDashboard.is_status CANCELLED a))
                  (AdminDashboard.appointments st)) at 3.
    apply Permutation_app; [done |].
    erewrite filter_ext_eq; [done |]. intros a. simpl.
    rewrite !negb_andb, !negb_involutive, Z.leb_antisym, negb_involutive.
    done.
  - intros a Ha. apply list_elem_of_In, filter_In in Ha as [_ Ha].
    apply andb_true_iff in Ha as [Ha Hc].
    apply andb_true_iff in Ha as [Hd Hk].
    unfold AdminDashboard.is_status in *.
    apply negb_true_iff, bool_decide_eq_false in Hc.
    apply negb_true_iff, bool_decide_eq_false in Hk. split.
    + intros Hh. apply list_elem_of_In, filter_In in Hh as [_ Hh].
      apply orb_true_iff in Hh as [Hh | Hh];
        [apply orb_true_iff in Hh as [Hh | Hh] |].
      * apply Z.ltb_lt in Hh. apply Z.leb_le in Hd. lia.
      * by apply bool_decide_eq_true in Hh.
      * by apply bool_decide_eq_true in Hh.
    + by destruct (status (data a)).
Qed.

Lemma agenda_history_partition_witness :
  AdminDashboard.filteredAppointments
    (AdminDashboard.filterEffect (λ s, s) LateChat.today
       (AdminDashboard.setCurrentView AdminDashboard.agenda LateChat.admin2))
  ++ AdminDashboard.filteredAppointments
       (AdminDashboard.filterEffect (λ s, s) LateChat.today
          (AdminDashboard.setCurrentView AdminDashboard.history LateChat.admin2))
  ≡ₚ AdminDashboard.appointments LateChat.admin2.
Proof.
  apply (agenda_history_partition (λ s, s) LateChat.today LateChat.admin2).
  constructor.
Defined.

Lemma onSnapshot_next_shape
    (toLowerCase : jsstring → jsstring) (today : jsstring)
    (snapshot : list (jsstring * DocData)) (st : AdminDashboard.State) :
  let st' := AdminDashboard.onSnapshot_next toLowerCase today snapshot st in
  AdminDashboard.appointments st'
    = Array_sort compareAppointments (snapshot_appointments snapshot) ∧
  (∃ f, AdminDashboard.filteredAppointments st'
        = List.filter f (AdminDashboard.appointments st')) ∧
  AdminDashboard.loading st' = false ∧ AdminDashboard.error st' = None.
Proof.
  cbn zeta.
  assert (Happ : AdminDashboard.appointments
                   (AdminDashboard.onSnapshot_next toLowerCase today snapshot st)
                 = Array_sort compareAppointments
                     (snapshot_appointments snapshot)).
  { unfold AdminDashboard.onSnapshot_next, AdminDashboard.filterEffect.
    by destruct (negb _). }
  split_and!; [done | |
    unfold AdminDashboard.onSnapshot_next, AdminDashboard.filterEffect;
    by destruct (negb _) ..].
  rewrite Happ.
  unfold AdminDashboard.onSnapshot_next, AdminDashboard.filterEffect,
    StorageService.subscribeToAppointments.
  cbn [AdminDashboard.onData AdminDashboard.searchTerm
       AdminDashboard.currentView AdminDashboard.appointments].
  destruct (negb _); destruct (AdminDashboard.currentView st);
    cbn [AdminDashboard.setFilteredAppointments
         AdminDashboard.filteredAppointments];
    rewrite ?filter_twice;
    try (by eexists);
    by (exists (λ _, false); rewrite filter_none).
Qed.

(** X5. Each time the store delivers the collection, the dashboard holds all
    of its documents, each once with its id, and the list on screen, in every
    view and for every search term, is a selection of them in the order in
    which the dashboard holds them; when the dates and times delivered are
    zero-padded (YYYY-MM-DD, HH:MM), that order is the lexicographic order of
    the (date, time) pairs.  The loading flag and the error message are
    cleared. *)
Theorem displayed_list_in_order
    (toLowerCase : jsstring → jsstring) (today : jsstring)
    (snapshot : list (jsstring * DocData)) (st : AdminDashboard.State) :
  let st' := AdminDashboard.onSnapshot_next toLowerCase today snapshot st in
  AdminDashboard.appointments st'
    ≡ₚ (λ p, {| id := p.1; data := p.2 |}) <$> snapshot ∧
  AdminDashboard.filteredAppointments st'
    `sublist_of` AdminDashboard.appointments st' ∧
  (Forall (λ p, well_formed p.2 = true) snapshot →
   ∀ i j a b,
     AdminDashboard.filteredAppointments st' !! i = Some a →
     AdminDashboard.filteredAppointments st' !! j = Some b →
     earlier a b → (i < j)%nat) ∧
  AdminDashboard.loading st' = false ∧ AdminDashboard.error st' = None.
Proof.
  cbn zeta.
  destruct (onSnapshot_next_shape toLowerCase today snapshot st)
    as (Happ & [f Hf] & Hload & Herr).
  rewrite Hf, Happ.
  assert (Hs : StronglySorted (λ a b, (compareAppointments a b ≤ 0)%Z)
                 (Array_sort compareAppointments
                    (snapshot_appointments snapshot)))
    by apply (Array_sort_sorted compareAppointments
                compareAppointments_antisym compareAppointments_trans).
  split_and!; try done.
  - apply Array_sort_perm.
  - apply filter_sublist.
  - intros Hformat i j a b Hi Hj Hab.
    assert (Hwf : ∀ k x,
              List.filter f (Array_sort compareAppointments
                               (snapshot_appointments snapshot)) !! k = Some x →
              well_formed (data x) = true).
    { intros k x Hk. apply list_elem_of_lookup_2 in Hk.
      apply list_elem_of_In, filter_In in Hk as [Hk _].
      apply list_elem_of_In in Hk.
      rewrite Array_sort_perm in Hk. unfold snapshot_appointments in Hk.
      apply list_elem_of_fmap in Hk as (p & -> & Hp).
      rewrite Forall_forall in Hformat. by apply Hformat. }
    apply (sorted_appears_before _ i j a b
             (StronglySorted_filter _ f _ Hs) Hi Hj).
    by apply earlier_collates_before; [apply (Hwf i) | apply (Hwf j) |].
Qed.

Lemma displayed_list_in_order_witness :
  id <$> AdminDashboard.filteredAppointments
           (AdminDashboard.onSnapshot_next (λ s, s) LateChat.today
              UnpaddedTimes.padded AdminDashboard.initial)
  = [js "a"; js "b"; js "c"] ∧
  ∀ i j a b,
    AdminDashboard.filteredAppointments
      (AdminDashboard.onSnapshot_next (λ s, s) LateChat.today
         UnpaddedTimes.padded AdminDashboard.initial) !! i = Some a →
    AdminDashboard.filteredAppointments
      (AdminDashboard.onSnapshot_next (λ s, s) LateChat.today
         UnpaddedTimes.padded AdminDashboard.initial) !! j = Some b →
    earlier a b → (i < j)%nat.
Proof.
  split; [reflexivity |].
  refine (proj1 (proj2 (proj2
    (displayed_list_in_order (λ s, s) LateChat.today UnpaddedTimes.padded
       AdminDashboard.initial))) _).
  repeat constructor.
Defined.

Lemma three_way_count {A} (f g h : A → bool) (l : list A) :
  (∀ a, (f a = true ∧ g a = false ∧ h a = false)
        ∨ (f a = false ∧ g a = true ∧ h a = false)
        ∨ (f a = false ∧ g a = false ∧ h a = true)) →
  (length (List.filter f l) + length (List.filter g l)
   + length (List.filter h l) = length l)%nat.
Proof.
  intros Hone. induction l as [|x l IH]; simpl; [done |].
  destruct (Hone x) as [(-> & -> & ->) | [(-> & -> & ->) | (-> & -> & ->)]];
    simpl; lia.
Qed.

(** X6. The three numbers of the statistics view and the agenda add up: the
    cancelled appointments, those counted as completed or past, and the
    appointments the agenda lists when nothing is searched are together all
    the appointments, each counted once. *)
Theorem stats_agree_with_agenda
    (toLowerCase : jsstring → jsstring) (today : jsstring)
    (st : AdminDashboard.State)
    (Hblank : Forall (λ c, is_white_space c = true)
                (AdminDashboard.searchTerm st)) :
  let s := AdminDashboard.DashboardStats today st in
  let listed :=
    AdminDashboard.filteredAppointments
      (AdminDashboard.filterEffect toLowerCase today
         (AdminDashboard.setCurrentView AdminDashboard.agenda st)) in
  (AdminDashboard.cancelled s + AdminDashboard.completed s + length listed
   = AdminDashboard.totalAppointments s)%nat.
Proof.
  cbn zeta. rewrite filterEffect_blank by done. cbn.
  apply three_way_count. intros a. unfold AdminDashboard.is_status.
  destruct (Z.ltb_spec (code_unit_compare (date (data a)) today) 0) as [Hlt|Hge];
    [rewrite (proj2 (Z.leb_gt _ _) Hlt) | rewrite (proj2 (Z.leb_le _ _) Hge)];
    destruct (status (data a)); simpl; auto.
Qed.

Lemma stats_agree_with_agenda_witness :
  (AdminDashboard.cancelled
     (AdminDashboard.DashboardStats LateChat.today LateChat.admin2)
   + AdminDashboard.completed
       (AdminDashboard.DashboardStats LateChat.today LateChat.admin2)
   + length (AdminDashboard.filteredAppointments
               (AdminDashboard.filterEffect (λ s, s) LateChat.today
                  (AdminDashboard.setCurrentView AdminDashboard.agenda
                     LateChat.admin2)))
   = AdminDashboard.totalAppointments
       (AdminDashboard.DashboardStats LateChat.today LateChat.admin2))%nat.
Proof.
  apply (stats_agree_with_agenda (λ s, s) LateChat.today LateChat.admin2).
  constructor.
Defined.

(** ** The appointment form ([AdminDashboard.tsx]) *)

Lemma handleSubmit_final_treatment (st : AdminDashboard.State) (elapsed : N)
    (autoId : jsstring) (reply : ServerReply) :
  AdminDashboard.handleSubmit st elapsed autoId reply
  = try_catch
      (if negb (truthy (trim (AdminDashboard.final_treatment
                                (AdminDashboard.formData st))))
       then bind (alert (js "Por favor especifica el tratamiento."))
                 (λ _, ret st)
       else bind
              (if truthy_opt (AdminDashboard.editingId st)
               then StorageService.updateAppointment
                      (default [] (AdminDashboard.editingId st))
                      (AdminDashboard.payload_updates
                         (AdminDashboard.formData st)
                         (AdminDashboard.final_treatment
                            (AdminDashboard.formData st)))
                      reply
               else StorageService.createAppointment
                      (AdminDashboard.payload_dto
                         (AdminDashboard.formData st)
                         (AdminDashboard.final_treatment
                            (AdminDashboard.formData st)))
                      elapsed autoId reply)
              (λ _, ret (AdminDashboard.closeForm st)))
      (λ e, bind (alert (js "Error al guardar la cita.")) (λ _, ret st)).
Proof. reflexivity. Qed.

Lemma handleEditClick_final_treatment (appt : Appointment)
    (st : AdminDashboard.State) :
  AdminDashboard.final_treatment
    (AdminDashboard.formData (AdminDashboard.handleEditClick appt st))
  = treatmentType (data appt).
Proof.
  unfold AdminDashboard.handleEditClick, AdminDashboard.final_treatment.
  cbn [AdminDashboard.formData AdminDashboard.openForm
       AdminDashboard.fd_treatmentType AdminDashboard.fd_customTreatment].
  destruct (bool_decide _) eqn:Hstd.
  - apply bool_decide_eq_true in Hstd. rewrite decide_False; [done |].
    intros Heq. rewrite Heq in Hstd. revert Hstd. clear.
    unfold AdminDashboard.TREATMENT_OPTIONS.
    rewrite !elem_of_cons, elem_of_nil. intros [H|[H|[H|[H|[H|[]]]]]];
      by vm_compute in H.
  - by rewrite decide_True.
Qed.

(** X7. Opening the edit form on an appointment and saving it unchanged sends
    one update carrying the appointment's own name, email, phone, date, time
    and treatment (a treatment outside the preset list makes the round trip
    through the free-text field), and leaves the stored document as it was;
    the form is then closed. *)
Theorem edit_without_changes
    (appt : Appointment) (st : AdminDashboard.State) (elapsed : N)
    (autoId email phone : jsstring) (w : World)
    (Hid : truthy (id appt) = true)
    (Htreatment : Exists (λ c, is_white_space c = false)
                    (treatmentType (data appt)))
    (Hemail : patientEmail (data appt) = Some email)
    (Hphone : patientPhone (data appt) = Some phone)
    (Hdoc : docs w !! id appt = Some (data appt)) :
  let form := AdminDashboard.handleEditClick appt st in
  AdminDashboard.handleSubmit form elapsed autoId Accept w
  = ({| docs := docs w; clock := clock w;
        calls := calls w ++
          [CallUpdateDoc (id appt)
             [set_patientName (Some (patientName (data appt)));
              set_patientEmail (Some email);
              set_patientPhone (Some phone);
              set_date (Some (date (data appt)));
              set_time (Some (time (data appt)));
              set_treatmentType (Some (treatmentType (data appt)))]];
        console := console w; alerts := alerts w |},
     Returned (AdminDashboard.closeForm form)).
Proof.
  cbn zeta. rewrite handleSubmit_final_treatment.
  rewrite handleEditClick_final_treatment.
  apply truthy_trim_true in Htreatment. rewrite Htreatment.
  set (form := AdminDashboard.handleEditClick appt st).
  assert (Hform : AdminDashboard.editingId form = Some (id appt)
                  ∧ AdminDashboard.payload_updates
                      (AdminDashboard.formData form)
                      (treatmentType (data appt))
                    = [set_patientName (Some (patientName (data appt)));
                       set_patientEmail (Some email);
                       set_patientPhone (Some phone);
                       set_date (Some (date (data appt)));
                       set_time (Some (time (data appt)));
                       set_treatmentType (Some (treatmentType (data appt)))]).
  { split; [done |]. unfold form, AdminDashboard.handleEditClick,
      AdminDashboard.payload_updates; cbn.
    rewrite Hemail, Hphone. cbn. by rewrite !or_empty_id. }
  destruct Hform as [-> ->]. cbn [truthy_opt default from_option negb].
  rewrite Hid. run_service. rewrite Hdoc.
  destruct appt as [i d]. destruct d. cbn in *. subst.
  by rewrite insert_id.
Qed.

Lemma edit_without_changes_witness :
  (AdminDashboard.handleSubmit
     (AdminDashboard.handleEditClick
        {| id := LateChat.apptId; data := LateChat.appt |} LateChat.admin0)
     0 [] Accept LateChat.world0).2
  = Returned
      (AdminDashboard.closeForm
         (AdminDashboard.handleEditClick
            {| id := LateChat.apptId; data := LateChat.appt |}
            LateChat.admin0)).
Proof.
  rewrite (edit_without_changes
             {| id := LateChat.apptId; data := LateChat.appt |}
             LateChat.admin0 0 [] [] [] LateChat.world0); try reflexivity.
  apply Exists_cons_hd. reflexivity.
Defined.

(** X8. When the store refuses the request of a submitted form: a new
    appointment is not created, the failure is shown in an alert (after the
    permission alert, for a permission error) and the form stays open with
    what was typed; but an edit appears to succeed: the form is closed and
    reset exactly as after a saved edit, no alert is shown, and the stored
    appointments are unchanged. *)
Theorem handleSubmit_refused
    (st : AdminDashboard.State) (elapsed : N) (autoId : jsstring)
    (e : FirestoreError) (w : World)
    (Htreatment : Exists (λ c, is_white_space c = false)
                    (AdminDashboard.final_treatment
                       (AdminDashboard.formData st))) :
  let r := AdminDashboard.handleSubmit st elapsed autoId (Reject e) w in
  docs r.1 = docs w ∧
  (truthy_opt (AdminDashboard.editingId st) = false →
   r.2 = Returned st ∧
   alerts r.1 =
     alerts w
     ++ (if decide (code e = js "permission-denied")
         then [StorageService.no_permission_alert] else [])
     ++ [js "Error al guardar la cita."]) ∧
  (truthy_opt (AdminDashboard.editingId st) = true →
   r.2 = Returned (AdminDashboard.closeForm st) ∧
   alerts r.1 = alerts w ∧
   console r.1 = console w ++ [(js "Error updating appointment:", e)]).
Proof.
  cbn zeta. rewrite handleSubmit_final_treatment.
  apply truthy_trim_true in Htreatment. rewrite Htreatment. cbn [negb].
  destruct (truthy_opt (AdminDashboard.editingId st)).
  - run_service. by split_and!.
  - run_service.
    destruct (decide (code e = js "permission-denied")); cbn -[js];
      split_and!; try done; intros _; split; try done;
      by rewrite <- ?app_assoc.
Qed.

Lemma handleSubmit_refused_witness :
  (AdminDashboard.handleSubmit AdminDashboard.initial 0 (js "n1")
     (Reject {| code := js "unavailable" |}) LateChat.world0).2
  = Returned AdminDashboard.initial.
Proof.
  refine (proj1 (proj1 (proj2
            (handleSubmit_refused AdminDashboard.initial 0 (js "n1")
               {| code := js "unavailable" |} LateChat.world0 _)) _)).
  - apply Exists_cons_hd. reflexivity.
  - reflexivity.
Defined.

(** ** Blank input, missing appointment *)

(** X9. Nothing is sent for blank input: a chat message that is empty or
    white space only, from the patient view or from the dashboard, and a form
    whose treatment is blank, make no store call and leave the component
    state as it was; the form only shows the alert that asks for the
    treatment. *)
Theorem blank_input_makes_no_call :
  (∀ st e1 e2 reply w,
     Forall (λ c, is_white_space c = true) (PatientView.messageText st) →
     PatientView.handleSendMessage st e1 e2 reply w = (w, Returned st)) ∧
  (∀ st e1 e2 reply w,
     Forall (λ c, is_white_space c = true) (AdminDashboard.chatMessage st) →
     AdminDashboard.chatForm_onSubmit st e1 e2 reply w = (w, Returned st) ∧
     AdminDashboard.can_submit_chat st = false) ∧
  (∀ st elapsed autoId reply w,
     Forall (λ c, is_white_space c = true)
       (AdminDashboard.final_treatment (AdminDashboard.formData st)) →
     AdminDashboard.handleSubmit st elapsed autoId reply w
     = ({| docs := docs w; clock := clock w; calls := calls w;
           console := console w;
           alerts := alerts w ++ [js "Por favor especifica el tratamiento."] |},
        Returned st)).
Proof.
  split_and!.
  - intros st e1 e2 reply w Hb. apply truthy_trim_false in Hb.
    unfold PatientView.handleSendMessage. rewrite Hb.
    by destruct (PatientView.appointment st).
  - intros st e1 e2 reply w Hb. apply truthy_trim_false in Hb.
    unfold AdminDashboard.chatForm_onSubmit, AdminDashboard.handleSendChat,
      AdminDashboard.can_submit_chat.
    rewrite Hb. cbn. split; [by destruct (truthy_opt _) | apply andb_false_r].
  - intros st elapsed autoId reply w Hb. apply truthy_trim_false in Hb.
    rewrite handleSubmit_final_treatment, Hb. reflexivity.
Qed.

(** X10. After an accepted delete, fetching the appointment returns
    [undefined] and every other document is untouched; a patient view that is
    told of the deletion shows the not-found screen, and none of its handlers
    (send, cancel, resume) makes a store call any more. *)
Theorem deleted_appointment_is_gone
    (docId : jsstring) (w : World) (st : PatientView.State) :
  let deleted :=
    world_after (StorageService.deleteAppointment docId Accept w) in
  let view :=
    PatientView.onSnapshot_next docId (docs deleted !! docId) st in
  returned (StorageService.getAppointmentById docId Accept deleted)
    = Some None ∧
  (∀ other, other ≠ docId → docs deleted !! other = docs w !! other) ∧
  PatientView.screen view = PatientView.NotFound ∧
  (∀ e1 e2 reply w',
     PatientView.handleSendMessage view e1 e2 reply w' = (w', Returned view)) ∧
  (∀ reply w',
     PatientView.handleCancel view reply w' = (w', Returned view)) ∧
  (∀ confirmed reply w',
     PatientView.handleResume view confirmed reply w' = (w', Returned view)).
Proof.
  cbn zeta. run_service. rewrite lookup_delete_eq. cbn.
  split_and!; try done.
  intros other Hne. by rewrite lookup_delete_ne.
Qed.

(** ** What a write can do to the collection *)

Lemma updateAppointment_docs (docId : jsstring) (updates : list FieldUpdate)
    (reply : ServerReply) (w : World) :
  docs (StorageService.updateAppointment docId updates reply w).1 = docs w
  ∨ ∃ d, docs w !! docId = Some d
         ∧ existsb is_undefined updates = false
         ∧ docs (StorageService.updateAppointment docId updates reply w).1
           = <[docId := merge_fields updates d]> (docs w).
Proof.
  run_service. destruct (existsb is_undefined updates); cbn; [by left |].
  destruct reply; cbn; [| by left].
  destruct (docs w !! docId) as [d|] eqn:Hd; cbn; [| by left].
  right. by exists d.
Qed.

Lemma addMessage_docs (docId : jsstring) (message : MessageDraft)
    (elapsed : N) (reply : ServerReply) (w : World) :
  docs (StorageService.addMessage docId message elapsed reply w).1 = docs w
  ∨ ∃ d, docs w !! docId = Some d
         ∧ docs (StorageService.addMessage docId message elapsed reply w).1
           = <[docId := server_append d
                 (StorageService.newMessage message (clock w + elapsed))]>
               (docs w).
Proof.
  run_service. destruct reply; cbn -[N.add]; [| by left].
  destruct (docs w !! docId) as [d|] eqn:Hd; cbn -[N.add]; [| by left].
  right. by exists d.
Qed.

Lemma createAppointment_docs (dto : NewAppointmentDTO) (elapsed : N)
    (autoId : jsstring) (reply : ServerReply) (w : World) :
  docs (StorageService.createAppointment dto elapsed autoId reply w).1 = docs w
  ∨ docs (StorageService.createAppointment dto elapsed autoId reply w).1
    = <[autoId := StorageService.newAppointment dto (clock w + elapsed)]>
        (docs w).
Proof.
  run_service. destruct reply as [|e]; cbn -[N.add decide js]; [by right |].
  left. by destruct (decide _).
Qed.

Lemma deleteAppointment_docs (docId : jsstring) (reply : ServerReply)
    (w : World) :
  docs (StorageService.deleteAppointment docId reply w).1
  = match reply with Accept => delete docId (docs w) | Reject _ => docs w end.
Proof. run_service. by destruct reply. Qed.

(** X11. An update and a chat message never create a document and never
    remove one, whatever the store answers: sent for an appointment that was
    deleted meanwhile, they do not bring it back.  A delete removes at most
    the document it names, and a creation adds at most the document under the
    id the store assigns. *)
Theorem writes_and_document_ids
    (docId : jsstring) (updates : list FieldUpdate) (message : MessageDraft)
    (dto : NewAppointmentDTO) (elapsed : N) (autoId : jsstring)
    (reply : ServerReply) (w : World) :
  dom (docs (StorageService.updateAppointment docId updates reply w).1)
    = dom (docs w) ∧
  dom (docs (StorageService.addMessage docId message elapsed reply w).1)
    = dom (docs w) ∧
  dom (docs (StorageService.deleteAppointment docId reply w).1)
    = match reply with
      | Accept => dom (docs w) ∖ {[docId]}
      | Reject _ => dom (docs w)
      end ∧
  dom (docs (StorageService.createAppointment dto elapsed autoId reply w).1)
    = match reply with
      | Accept => {[autoId]} ∪ dom (docs w)
      | Reject _ => dom (docs w)
      end.
Proof.
  split_and!.
  - destruct (updateAppointment_docs docId updates reply w)
      as [-> | (d & Hd & _ & ->)]; [done |].
    rewrite dom_insert_L.
    assert (docId ∈ dom (docs w)) by (by apply elem_of_dom_2 with d).
    set_solver.
  - destruct (addMessage_docs docId message elapsed reply w)
      as [-> | (d & Hd & ->)]; [done |].
    rewrite dom_insert_L.
    assert (docId ∈ dom (docs w)) by (by apply elem_of_dom_2 with d).
    set_solver.
  - rewrite deleteAppointment_docs. destruct reply; [| done].
    by rewrite dom_delete_L.
  - run_service. destruct reply as [|e]; cbn -[N.add decide js].
    + by rewrite dom_insert_L.
    + by destruct (decide _).
Qed.

(** ** What no action changes *)

Lemma docs_bind_ret {A B} (m : M A) (x : B) (w : World) :
  docs (bind m (λ _, ret x) w).1 = docs (m w).1.
Proof. unfold bind, ret. by destruct (m w) as [w' [a|e]]. Qed.

Lemma docs_try_catch_alert {A} (m : M A) (msg : jsstring) (x : A) (w : World) :
  docs (try_catch m (λ _, bind (alert msg) (λ _, ret x)) w).1 = docs (m w).1.
Proof. unfold try_catch, bind, ret, alert. by destruct (m w) as [w' [a|e]]. Qed.

Lemma docs_bind_Date_now {A} (elapsed : N) (k : N → M A) (w : World) :
  docs (bind (Date_now elapsed) k w).1
  = docs (k (clock w + elapsed)
            {| docs := docs w; clock := clock w + elapsed; calls := calls w;
               console := console w; alerts := alerts w |}).1.
Proof. reflexivity. Qed.

Lemma server_append_history (d : DocData) (m : ChatMessage) :
  createdAt (server_append d m) = createdAt d
  ∧ message_list d `prefix_of` message_list (server_append d m).
Proof.
  split; [done |]. rewrite message_list_server_append.
  destruct (decide _); [done | by apply prefix_app_r].
Qed.

Lemma keeps_history_insert (m : gmap jsstring DocData) (i docId : jsstring)
    (d0 d1 d d' : DocData) :
  m !! i = Some d0 →
  createdAt d1 = createdAt d0 →
  message_list d0 `prefix_of` message_list d1 →
  m !! docId = Some d → <[i := d1]> m !! docId = Some d' →
  createdAt d' = createdAt d ∧ message_list d `prefix_of` message_list d'.
Proof.
  intros Hi Hc Hp Hd. rewrite lookup_insert. case_decide as Heq.
  - subst. intros [= <-]. rewrite Hd in Hi. by injection Hi as ->.
  - rewrite Hd. by intros [= <-].
Qed.

(** X12. No action of the dashboard or of the patient view rewrites the
    history of an appointment: as long as the document exists, its
    [createdAt] stays what it was and its message list only grows at the end
    (messages are never edited, reordered or removed one by one). *)
Theorem actions_keep_history
    (a : Action) (w : World) (docId : jsstring) (d d' : DocData)
    (Hnew : assigns_new_id a w)
    (Hbefore : docs w !! docId = Some d)
    (Hafter : docs (perform a w) !! docId = Some d') :
  createdAt d' = createdAt d ∧
  message_list d `prefix_of` message_list d'.
Proof.
  assert (Hsame : docs (perform a w) = docs w →
                  createdAt d' = createdAt d
                  ∧ message_list d `prefix_of` message_list d').
  { intros E. rewrite E, Hbefore in Hafter. by injection Hafter as ->. }
  destruct a as [st elapsed autoId reply | i confirmed reply
                | st e1 e2 reply | st e1 e2 reply | st reply
                | st confirmed reply]; simpl in *.
  - rewrite handleSubmit_final_treatment in *.
    rewrite docs_try_catch_alert in *.
    destruct (negb _); [by apply Hsame |].
    rewrite docs_bind_ret in *.
    destruct (truthy_opt _).
    + destruct (updateAppointment_docs
                  (default [] (AdminDashboard.editingId st))
                  (AdminDashboard.payload_updates (AdminDashboard.formData st)
                     (AdminDashboard.final_treatment
                        (AdminDashboard.formData st)))
                  reply w) as [E | (d0 & Hd0 & _ & E)]; [by apply Hsame |].
      rewrite E in Hafter.
      refine (keeps_history_insert _ _ _ _ _ _ _ Hd0 _ _ Hbefore Hafter);
        reflexivity.
    + destruct (createAppointment_docs
                  (AdminDashboard.payload_dto (AdminDashboard.formData st)
                     (AdminDashboard.final_treatment
                        (AdminDashboard.formData st)))
                  elapsed autoId reply w) as [E | E]; [by apply Hsame |].
      rewrite E, lookup_insert_ne in Hafter by congruence.
      rewrite Hbefore in Hafter. by injection Hafter as ->.
  - unfold AdminDashboard.handleDelete in *.
    destruct confirmed; [| by apply Hsame].
    rewrite deleteAppointment_docs in Hafter. destruct reply; [| by apply Hsame].
    apply lookup_delete_Some in Hafter as [_ Hafter].
    rewrite Hbefore in Hafter. by injection Hafter as ->.
  - unfold AdminDashboard.chatForm_onSubmit, AdminDashboard.handleSendChat in *.
    destruct (truthy_opt _); [| by apply Hsame].
    destruct (negb _); [by apply Hsame |].
    rewrite docs_bind_Date_now, docs_bind_ret in *.
    match type of Hafter with
    | docs (StorageService.addMessage ?i ?m ?e ?r ?w0).1 !! _ = _ =>
        destruct (addMessage_docs i m e r w0) as [E | (d0 & Hd0 & E)]
    end; [by apply Hsame |].
    rewrite E in Hafter. cbn [docs] in Hd0, Hafter.
    by apply (keeps_history_insert _ _ _ _ _ _ _ Hd0
                (proj1 (server_append_history d0 _))
                (proj2 (server_append_history d0 _)) Hbefore Hafter).
  - unfold PatientView.handleSendMessage in *.
    destruct (PatientView.appointment st) as [ap|]; [| by apply Hsame].
    destruct (truthy _); [| by apply Hsame].
    rewrite docs_bind_Date_now, docs_bind_ret in *.
    match type of Hafter with
    | docs (StorageService.addMessage ?i ?m ?e ?r ?w0).1 !! _ = _ =>
        destruct (addMessage_docs i m e r w0) as [E | (d0 & Hd0 & E)]
    end; [by apply Hsame |].
    rewrite E in Hafter. cbn [docs] in Hd0, Hafter.
    by apply (keeps_history_insert _ _ _ _ _ _ _ Hd0
                (proj1 (server_append_history d0 _))
                (proj2 (server_append_history d0 _)) Hbefore Hafter).
  - unfold PatientView.handleCancel in *.
    destruct (PatientView.appointment st) as [ap|]; [| by apply Hsame].
    destruct (truthy _); [| by apply Hsame].
    rewrite docs_bind_ret in *.
    match type of Hafter with
    | docs (StorageService.updateAppointment ?i ?u ?r ?w0).1 !! _ = _ =>
        destruct (updateAppointment_docs i u r w0) as [E | (d0 & Hd0 & _ & E)]
    end; [by apply Hsame |].
    rewrite E in Hafter.
    refine (keeps_history_insert _ _ _ _ _ _ _ Hd0 _ _ Hbefore Hafter);
      reflexivity.
  - unfold PatientView.handleResume in *.
    destruct (PatientView.appointment st) as [ap|]; [| by apply Hsame].
    destruct confirmed; [| by apply Hsame].
    rewrite docs_bind_ret in *.
    match type of Hafter with
    | docs (StorageService.updateAppointment ?i ?u ?r ?w0).1 !! _ = _ =>
        destruct (updateAppointment_docs i u r w0) as [E | (d0 & Hd0 & Hu & E)]
    end; [by apply Hsame | done].
Qed.

Lemma actions_keep_history_witness :
  createdAt (server_append LateChat.appt SameMillisecond.patient_message)
  = createdAt LateChat.appt ∧
  message_list LateChat.appt `prefix_of`
    message_list (server_append LateChat.appt SameMillisecond.patient_message).
Proof.
  apply (actions_keep_history
           (PatientSend SameMillisecond.patient_view 0 0 Accept)
           LateChat.world0 LateChat.apptId).
  - exact I.
  - reflexivity.
  - reflexivity.
Defined.

(** ** Concurrent chat messages *)














(** The same three sends through the handlers of the two views: the doctor's
    message and the patient's message, submitted twice within one
    millisecond, are each stored once. *)
Lemma same_millisecond_sends_stored :
  SameMillisecond.stored
  = Some [SameMillisecond.doctor_message; SameMillisecond.patient_message].
Proof. vm_compute. reflexivity. Qed.

(** ** The legacy comment *)

(** X13. Once a chat message has been stored for an appointment, neither the
    patient view nor the dashboard's chat shows the appointment's legacy
    comment any more, nor the hint of the empty chat, although the comment is
    still stored unchanged. *)
Theorem first_message_hides_legacy_comment
    (docId : jsstring) (message : MessageDraft) (elapsed : N)
    (w : World) (d : DocData) (Hdoc : docs w !! docId = Some d) :
  ∃ d',
    docs (world_after
            (StorageService.addMessage docId message elapsed Accept w))
      !! docId = Some d' ∧
    patientComments d' = patientComments d ∧
    PatientView.legacy_comment_shown {| id := docId; data := d' |} = false ∧
    PatientView.empty_hint_shown {| id := docId; data := d' |} = false ∧
    AdminDashboard.legacy_comment_shown {| id := docId; data := d' |} = false.
Proof.
  rewrite (addMessage_accepted _ _ _ _ _ Hdoc). unfold world_after; cbn [fst docs].
  eexists. split; [apply lookup_insert_eq |].
  set (m := StorageService.newMessage message (clock w + elapsed)).
  assert (Hne : ∃ x l, messages (server_append d m) = Some (x :: l)).
  { unfold server_append, merge_fields; cbn -[array_union].
    rewrite array_union_singleton.
    destruct (decide (m ∈ default [] (messages d))) as [Hin | Hnin].
    - destruct (default [] (messages d)) as [|x l]; [by apply elem_of_nil in Hin |].
      by exists x, l.
    - destruct (default [] (messages d)) as [|x l]; [by exists m, [] |].
      by exists x, (l ++ [m]). }
  destruct Hne as (x & l & Hne).
  unfold PatientView.legacy_comment_shown, PatientView.empty_hint_shown,
    PatientView.no_messages, AdminDashboard.legacy_comment_shown,
    message_list_of.
  cbn [data]. rewrite Hne. cbn.
  split_and!; [done | apply andb_false_r | done | apply andb_false_r].
Qed.

Lemma first_message_hides_legacy_comment_witness :
  ∃ d',
    docs (world_after
            (StorageService.addMessage LateChat.apptId
               {| draft_sender := patient; draft_text := js "Hola";
                  draft_timestamp := 1000 |} 0 Accept LateChat.world0))
      !! LateChat.apptId = Some d' ∧
    patientComments d' = patientComments LateChat.appt ∧
    PatientView.legacy_comment_shown {| id := LateChat.apptId; data := d' |}
      = false ∧
    PatientView.empty_hint_shown {| id := LateChat.apptId; data := d' |}
      = false ∧
    AdminDashboard.legacy_comment_shown {| id := LateChat.apptId; data := d' |}
      = false.
Proof.
  apply (first_message_hides_legacy_comment LateChat.apptId
           {| draft_sender := patient; draft_text := js "Hola";
              draft_timestamp := 1000 |} 0 LateChat.world0 LateChat.appt).
  reflexivity.
Defined.

(** ** From the store to the lists on screen *)

Lemma delivered_appointment (toLowerCase : jsstring → jsstring)
    (today docId : jsstring) (d : DocData) (w : World)
    (st : AdminDashboard.State) :
  docs w !! docId = Some d →
  {| id := docId; data := d |}
    ∈ AdminDashboard.appointments
        (AdminDashboard.onSnapshot_next toLowerCase today
           (map_to_list (docs w)) st).
Proof.
  intros Hd.
  destruct (onSnapshot_next_shape toLowerCase today (map_to_list (docs w)) st)
    as (Happ & _).
  rewrite Happ, Array_sort_perm. unfold snapshot_appointments.
  apply list_elem_of_fmap. exists (docId, d). split; [done |].
  by apply elem_of_map_to_list.
Qed.

Lemma filterEffect_idemp (toLowerCase : jsstring → jsstring)
    (today : jsstring) (st : AdminDashboard.State) :
  AdminDashboard.filterEffect toLowerCase today
    (AdminDashboard.filterEffect toLowerCase today st)
  = AdminDashboard.filterEffect toLowerCase today st.
Proof.
  unfold AdminDashboard.filterEffect.
  destruct (negb (truthy (trim (AdminDashboard.searchTerm st)))) eqn:E;
    cbn [AdminDashboard.searchTerm AdminDashboard.setFilteredAppointments
         AdminDashboard.currentView AdminDashboard.appointments];
    by rewrite E.
Qed.

Lemma onSnapshot_next_view (toLowerCase : jsstring → jsstring)
    (today : jsstring) (snapshot : list (jsstring * DocData))
    (st : AdminDashboard.State) :
  let st' := AdminDashboard.onSnapshot_next toLowerCase today snapshot st in
  AdminDashboard.currentView st' = AdminDashboard.currentView st ∧
  AdminDashboard.searchTerm st' = AdminDashboard.searchTerm st ∧
  AdminDashboard.previewId st' = AdminDashboard.previewId st ∧
  AdminDashboard.loading st' = false ∧
  st' = AdminDashboard.filterEffect toLowerCase today st'.
Proof.
  cbn zeta. split_and!;
    try (unfold AdminDashboard.onSnapshot_next, AdminDashboard.filterEffect,
           StorageService.subscribeToAppointments;
         cbn [AdminDashboard.onData AdminDashboard.searchTerm
              AdminDashboard.currentView AdminDashboard.appointments];
         by destruct (negb _)).
  unfold AdminDashboard.onSnapshot_next. by rewrite filterEffect_idemp.
Qed.

Lemma handleCancel_docs (pst : PatientView.State) (a : Appointment)
    (d : DocData) (w : World) :
  PatientView.appointment pst = Some a →
  Exists (λ c, is_white_space c = false) (PatientView.cancelReason pst) →
  docs w !! id a = Some d →
  docs (world_after (PatientView.handleCancel pst Accept w))
  = <[id a := merge_fields
                [set_status (Some CANCELLED);
                 set_cancellationReason (Some (PatientView.cancelReason pst))]
                d]> (docs w).
Proof.
  intros Ha Hr Hd. apply truthy_trim_true in Hr.
  unfold PatientView.handleCancel. rewrite Ha, Hr. run_service.
  by rewrite Hd.
Qed.

Lemma delivered_data (toLowerCase : jsstring → jsstring)
    (today : jsstring) (w : World) (st : AdminDashboard.State)
    (x : Appointment) :
  x ∈ AdminDashboard.appointments
        (AdminDashboard.onSnapshot_next toLowerCase today
           (map_to_list (docs w)) st) →
  docs w !! id x = Some (data x).
Proof.
  destruct (onSnapshot_next_shape toLowerCase today (map_to_list (docs w)) st)
    as (Happ & _).
  rewrite Happ, Array_sort_perm. unfold snapshot_appointments.
  intros Hx. apply list_elem_of_fmap in Hx as ([i d] & -> & Hx).
  by apply elem_of_map_to_list in Hx.
Qed.



Lemma chat_buttons_listed (st : AdminDashboard.State) (x : Appointment) :
  x ∈ AdminDashboard.chat_buttons st →
  x ∈ AdminDashboard.filteredAppointments st.
Proof.
  unfold AdminDashboard.chat_buttons.
  destruct (truthy_opt _); [by intros ?%elem_of_nil |].
  destruct (AdminDashboard.currentView st), (AdminDashboard.loading st);
    try (by intros ?%elem_of_nil);
    intros Hx; apply list_elem_of_In, filter_In in Hx as [Hx _];
    by apply list_elem_of_In.
Qed.

(** X15. After the patient cancels with a reason that is not blank and the
    store accepts, a dashboard that receives the collection lists the
    appointment, as CANCELLED and with the reason, in the history and not in
    the agenda, and offers no "Chat" button for it. *)
Theorem cancelled_appointment_moves_to_history
    (toLowerCase : jsstring → jsstring) (today : jsstring)
    (pst : PatientView.State) (a : Appointment) (d : DocData) (w : World)
    (st : AdminDashboard.State)
    (Hloaded : PatientView.appointment pst = Some a)
    (Hreason : Exists (λ c, is_white_space c = false)
                 (PatientView.cancelReason pst))
    (Hdoc : docs w !! id a = Some d)
    (Hblank : Forall (λ c, is_white_space c = true)
                (AdminDashboard.searchTerm st)) :
  let w' := world_after (PatientView.handleCancel pst Accept w) in
  let shown v :=
    AdminDashboard.onSnapshot_next toLowerCase today (map_to_list (docs w'))
      (AdminDashboard.setCurrentView v st) in
  ∃ d', docs w' !! id a = Some d' ∧
        status d' = CANCELLED ∧
        cancellationReason d' = Some (PatientView.cancelReason pst) ∧
        {| id := id a; data := d' |}
          ∈ AdminDashboard.filteredAppointments (shown AdminDashboard.history) ∧
        (∀ x, x ∈ AdminDashboard.filteredAppointments
                    (shown AdminDashboard.agenda) → id x ≠ id a) ∧
        (∀ v x, x ∈ AdminDashboard.chat_buttons (shown v) → id x ≠ id a).
Proof.
  cbn beta zeta.
  pose proof (handleCancel_docs pst a d w Hloaded Hreason Hdoc) as Hw.
  set (w' := world_after (PatientView.handleCancel pst Accept w)) in *.
  set (d' := merge_fields [set_status (Some CANCELLED);
                           set_cancellationReason
                             (Some (PatientView.cancelReason pst))] d).
  assert (Hd' : docs w' !! id a = Some d')
    by (rewrite Hw; apply lookup_insert_eq).
  exists d'. split_and!; try done.
  - pose proof (delivered_appointment toLowerCase today (id a) d' w'
                  (AdminDashboard.setCurrentView AdminDashboard.history st) Hd')
      as Hin.
    destruct (onSnapshot_next_view toLowerCase today (map_to_list (docs w'))
                (AdminDashboard.setCurrentView AdminDashboard.history st))
      as (Hv & Hs & _ & _ & Hfix).
    rewrite Hfix, filterEffect_blank by (by rewrite Hs).
    rewrite Hv. cbn [AdminDashboard.setCurrentView AdminDashboard.currentView].
    apply list_elem_of_In, filter_In. split; [by apply list_elem_of_In |].
    unfold AdminDashboard.is_status. cbn. apply orb_true_r.
  - intros x Hx Hid.
    destruct (onSnapshot_next_view toLowerCase today (map_to_list (docs w'))
                (AdminDashboard.setCurrentView AdminDashboard.agenda st))
      as (Hv & Hs & _ & _ & Hfix).
    rewrite Hfix, filterEffect_blank in Hx by (by rewrite Hs).
    rewrite Hv in Hx.
    cbn [AdminDashboard.setCurrentView AdminDashboard.currentView] in Hx.
    apply list_elem_of_In, filter_In in Hx as [Hx Hf].
    apply (proj2 (list_elem_of_In _ _)) in Hx. apply delivered_data in Hx.
    rewrite Hid, Hd' in Hx. injection Hx as Hx.
    apply andb_true_iff in Hf as [_ Hf].
    unfold AdminDashboard.is_status in Hf.
    apply negb_true_iff, bool_decide_eq_false in Hf. by rewrite <- Hx in Hf.
  - intros v x Hx Hid.
    pose proof (chat_buttons_not_cancelled _ _ Hx) as Hnc.
    assert (Hx' : x ∈ AdminDashboard.appointments
                        (AdminDashboard.onSnapshot_next toLowerCase today
                           (map_to_list (docs w'))
                           (AdminDashboard.setCurrentView v st))).
    { destruct (onSnapshot_next_shape toLowerCase today
                  (map_to_list (docs w'))
                  (AdminDashboard.setCurrentView v st)) as (_ & [f Hf] & _).
      apply chat_buttons_listed in Hx. rewrite Hf in Hx.
      apply list_elem_of_In, filter_In in Hx as [Hx _].
      by apply list_elem_of_In. }
    apply delivered_data in Hx'. rewrite Hid, Hd' in Hx'.
    injection Hx' as Hx'. by rewrite <- Hx' in Hnc.
Qed.

Lemma cancelled_appointment_moves_to_history_witness :
  ∃ d',
    docs (world_after
            (PatientView.handleCancel LateChat.patient1 Accept LateChat.world0))
      !! LateChat.apptId = Some d' ∧
    status d' = CANCELLED.
Proof.
  assert (Hreason : Exists (λ c, is_white_space c = false)
                      (PatientView.cancelReason LateChat.patient1))
    by (apply Exists_cons_hd; reflexivity).
  destruct (cancelled_appointment_moves_to_history (λ s, s) LateChat.today
              LateChat.patient1
              {| id := LateChat.apptId; data := LateChat.appt |}
              LateChat.appt LateChat.world0 AdminDashboard.initial
              eq_refl Hreason eq_refl (Forall_nil_2 _))
    as (d' & Hd' & Hst & _).
  exists d'. split; assumption.
Defined.

(** ** Creating from the form, and who a message is from *)

(** X16. A form opened with "Nueva Cita" always creates: whatever was being
    edited before, submitting it with a treatment that is not blank makes one
    [addDoc] and no update; when the store accepts, the new appointment holds
    what was typed (for "Otro", the free text as treatment), status SCHEDULED
    and an empty chat, and the form is closed and reset. *)
Theorem new_form_creates
    (st : AdminDashboard.State) (fd : AdminDashboard.FormData)
    (elapsed : N) (autoId : jsstring) (w : World)
    (Htreatment : Exists (λ c, is_white_space c = false)
                    (AdminDashboard.final_treatment fd)) :
  let form :=
    AdminDashboard.setFormData fd (AdminDashboard.handleOpenCreateModal st) in
  let created :=
    {| patientName := AdminDashboard.fd_patientName fd;
       patientEmail := Some (AdminDashboard.fd_patientEmail fd);
       patientPhone := Some (AdminDashboard.fd_patientPhone fd);
       date := AdminDashboard.fd_date fd;
       time := AdminDashboard.fd_time fd;
       treatmentType := AdminDashboard.final_treatment fd;
       status := SCHEDULED; doctorNotes := None; patientComments := None;
       cancellationReason := None; messages := Some [];
       createdAt := clock w + elapsed |} in
  AdminDashboard.handleSubmit form elapsed autoId Accept w
  = ({| docs := <[autoId := created]> (docs w); clock := clock w + elapsed;
        calls := calls w ++ [CallAddDoc created];
        console := console w; alerts := alerts w |},
     Returned (AdminDashboard.closeForm form)).
Proof.
  cbn zeta. rewrite handleSubmit_final_treatment.
  cbn [AdminDashboard.setFormData AdminDashboard.handleOpenCreateModal
       AdminDashboard.openForm AdminDashboard.formData AdminDashboard.editingId
       truthy_opt].
  apply truthy_trim_true in Htreatment. rewrite Htreatment.
  reflexivity.
Qed.

Lemma new_form_creates_witness :
  (AdminDashboard.handleSubmit
     (AdminDashboard.setFormData AdminDashboard.empty_form
        (AdminDashboard.handleOpenCreateModal LateChat.admin1))
     3 (js "n1") Accept LateChat.world0).2
  = Returned
      (AdminDashboard.closeForm
         (AdminDashboard.setFormData AdminDashboard.empty_form
            (AdminDashboard.handleOpenCreateModal LateChat.admin1))).
Proof.
  rewrite (new_form_creates LateChat.admin1 AdminDashboard.empty_form 3
             (js "n1") LateChat.world0); [reflexivity |].
  apply Exists_cons_hd. reflexivity.
Defined.

Lemma server_append_new (d : DocData) (m x : ChatMessage) :
  x ∈ message_list (server_append d m) → x ∉ message_list d → x = m.
Proof.
  rewrite message_list_server_append.
  destruct (decide _); [done |]. intros Hx Hn.
  apply elem_of_app in Hx as [Hx | Hx]; [done |].
  by apply list_elem_of_singleton in Hx.
Qed.

(** X17. A message that appears in an appointment's chat through the patient
    view is from [patient], and one that appears through the dashboard's chat
    is from [doctor]; its text is the text as typed, its id is the decimal
    clock reading taken in [addMessage], and its timestamp is not later than
    that reading. *)
Theorem message_sender_by_view
    (w : World) (docId : jsstring) (d d' : DocData) (x : ChatMessage)
    (Hbefore : docs w !! docId = Some d) (Hnew : x ∉ message_list d) :
  (∀ st e1 e2 reply,
     docs (perform (PatientSend st e1 e2 reply) w) !! docId = Some d' →
     x ∈ message_list d' →
     x = {| msg_id := toString (clock w + e1 + e2); sender := patient;
            text := PatientView.messageText st;
            timestamp := clock w + e1 |}
     ∧ timestamp x ≤ clock w + e1 + e2) ∧
  (∀ st e1 e2 reply,
     docs (perform (AdminChat st e1 e2 reply) w) !! docId = Some d' →
     x ∈ message_list d' →
     x = {| msg_id := toString (clock w + e1 + e2); sender := doctor;
            text := AdminDashboard.chatMessage st;
            timestamp := clock w + e1 |}
     ∧ timestamp x ≤ clock w + e1 + e2).
Proof.
  assert (Hsame : ∀ w', docs w' = docs w →
                        docs w' !! docId = Some d' → x ∈ message_list d' → False).
  { intros w' E Hd' Hx. rewrite E, Hbefore in Hd'. injection Hd' as <-. done. }
  assert (Hins : ∀ i d0 m,
            docs w !! i = Some d0 →
            <[i := server_append d0 m]> (docs w) !! docId = Some d' →
            x ∈ message_list d' → x = m).
  { intros i d0 m Hd0. rewrite lookup_insert. case_decide as Heq.
    - subst. intros [= <-] Hx. rewrite Hbefore in Hd0. injection Hd0 as <-.
      by apply (server_append_new d m x).
    - rewrite Hbefore. intros [= <-] Hx. done. }
  split.
  - intros st e1 e2 reply Hafter Hx. simpl in Hafter.
    unfold PatientView.handleSendMessage in Hafter.
    destruct (PatientView.appointment st) as [ap|];
      [| by destruct (Hsame _ eq_refl Hafter Hx)].
    destruct (truthy _); [| by destruct (Hsame _ eq_refl Hafter Hx)].
    rewrite docs_bind_Date_now, docs_bind_ret in Hafter.
    match type of Hafter with
    | docs (StorageService.addMessage ?i ?m ?e ?r ?w0).1 !! _ = _ =>
        destruct (addMessage_docs i m e r w0) as [E | (d0 & Hd0 & E)]
    end; [by destruct (Hsame _ E Hafter Hx) |].
    rewrite E in Hafter. cbn [docs clock] in Hd0, Hafter.
    rewrite (Hins _ _ _ Hd0 Hafter Hx). split; [done |]. cbn. lia.
  - intros st e1 e2 reply Hafter Hx. simpl in Hafter.
    unfold AdminDashboard.chatForm_onSubmit, AdminDashboard.handleSendChat
      in Hafter.
    destruct (truthy_opt _); [| by destruct (Hsame _ eq_refl Hafter Hx)].
    destruct (negb _); [by destruct (Hsame _ eq_refl Hafter Hx) |].
    rewrite docs_bind_Date_now, docs_bind_ret in Hafter.
    match type of Hafter with
    | docs (StorageService.addMessage ?i ?m ?e ?r ?w0).1 !! _ = _ =>
        destruct (addMessage_docs i m e r w0) as [E | (d0 & Hd0 & E)]
    end; [by destruct (Hsame _ E Hafter Hx) |].
    rewrite E in Hafter. cbn [docs clock] in Hd0, Hafter.
    rewrite (Hins _ _ _ Hd0 Hafter Hx). split; [done |]. cbn. lia.
Qed.

Lemma message_sender_by_view_witness :
  sender SameMillisecond.patient_message = patient.
Proof.
  destruct (proj1 (message_sender_by_view LateChat.world0 LateChat.apptId
                     LateChat.appt
                     (server_append LateChat.appt
                        SameMillisecond.patient_message)
                     SameMillisecond.patient_message
                     eq_refl (not_elem_of_nil _))
              SameMillisecond.patient_view 0 0 Accept eq_refl)
    as [-> _]; [| reflexivity].
  apply list_elem_of_singleton. reflexivity.
Defined.

(** ** A patient link without an id *)

(** X18. The link [#appt-] with nothing after it opens the patient view with
    an empty id, for which no subscription is made: whatever happens in the
    store, that view shows the loading spinner for ever, never the not-found
    screen. *)
Theorem empty_patient_link_never_loads
    (st : App.State) (deliveries : list (option DocData))
    (Hauth : App.loadingAuth st = false)
    (Hhash : App.currentHash st = js "#appt-") :
  App.render st = App.PatientScreen [] ∧
  PatientView.screen (PatientView.mounted [] deliveries)
    = PatientView.LoadingSpinner ∧
  (∀ docId, truthy docId = true →
     PatientView.screen (PatientView.mounted docId (deliveries ++ [None]))
       = PatientView.NotFound).
Proof.
  split_and!.
  - unfold App.render, App.isPatientView, App.appointmentId, App.isPatientView.
    by rewrite Hauth, Hhash.
  - reflexivity.
  - intros docId Hid. unfold PatientView.mounted. rewrite Hid. cbn [negb].
    rewrite foldl_app. cbn [foldl]. reflexivity.
Qed.

Lemma empty_patient_link_never_loads_witness :
  App.render
    (App.handleHashChange
       (App.onAuthStateChanged None
          (App.mount {| App.hash := []; App.theme_item := None;
                        App.dark_class := false; App.prefers_dark := false |}).1)
       {| App.hash := js "#appt-"; App.theme_item := None;
          App.dark_class := false; App.prefers_dark := false |})
  = App.PatientScreen [].
Proof.
  apply (empty_patient_link_never_loads
           (App.handleHashChange
              (App.onAuthStateChanged None
                 (App.mount {| App.hash := []; App.theme_item := None;
                               App.dark_class := false;
                               App.prefers_dark := false |}).1)
              {| App.hash := js "#appt-"; App.theme_item := None;
                 App.dark_class := false; App.prefers_dark := false |})
           []); reflexivity.
Defined.
